(** * AMD IBS driver core (driver/ibs-core.c): capability prober, per-core
      device initialisation, hot-plug callback, module load and unload.

    The C code is embedded shallowly.  The file-scope variables of
    ibs-core.c, the per-core device storage and the kernel objects the
    driver owns form an explicit state [kstate]; every function of the
    file is a computation in a small state-and-trace monad [M] that
    returns its C result, the new state and the list of kernel calls it
    made, in order.  Whatever the kernel or the hardware decides (CPUID
    words, allocation results, the set of cores) is read from a
    [Platform].

    Conditional compilation is resolved for a kernel with
    3.15 <= LINUX_VERSION_CODE < 4.10, the newest branch of every #if in
    the file.  Logging calls (pr_info, pr_err, pr_warn) change nothing
    that is modelled and are left out. *)

From Stdlib Require Import ZArith List Lia Bool.
From stdpp Require Import base tactics option list gmap.
Import ListNotations.
Local Open Scope Z_scope.

(** ** C integers *)

(** Conversion to [unsigned int]. *)
Definition to_uint (x : Z) : Z := x mod 2 ^ 32.

(** Conversion to [int] (two's complement, as gcc does on x86). *)
Definition to_int (x : Z) : Z :=
  let y := x mod 2 ^ 32 in if y <? 2 ^ 31 then y else y - 2 ^ 32.

(** Conversion to [long] of a 64-bit [unsigned long] or pointer. *)
Definition to_long (x : Z) : Z :=
  let y := x mod 2 ^ 64 in if y <? 2 ^ 63 then y else y - 2 ^ 64.

(** ** Kernel constants and inline helpers the file uses *)

Definition EINVAL : Z := 22.
Definition ENOMEM : Z := 12.
Definition MAX_ERRNO : Z := 4095.
Definition X86_VENDOR_AMD : Z := 2.
Definition PAGE_SIZE : Z := 4096.

(** linux/cpu.h, hot-plug actions. *)
Definition CPU_ONLINE : Z := 2.
Definition CPU_UP_PREPARE : Z := 3.
Definition CPU_UP_CANCELED : Z := 4.
Definition CPU_DOWN_PREPARE : Z := 5.
Definition CPU_DEAD : Z := 7.
Definition CPU_TASKS_FROZEN : Z := 16.
Definition CPU_UP_CANCELED_FROZEN : Z := Z.lor CPU_UP_CANCELED CPU_TASKS_FROZEN.

(** linux/notifier.h. *)
Definition NOTIFY_OK : Z := 1.
Definition NOTIFY_STOP_MASK : Z := 32768.

Definition notifier_from_errno (err : Z) : Z :=
  if err =? 0 then NOTIFY_OK
  else to_int (Z.lor NOTIFY_STOP_MASK (NOTIFY_OK - err)).

Definition notifier_to_errno (ret : Z) : Z :=
  let ret := Z.land ret (Z.lnot NOTIFY_STOP_MASK) in
  if ret >? NOTIFY_OK then NOTIFY_OK - ret else 0.

(** linux/err.h: a pointer in the last page of the address space carries
    an errno. *)
Definition IS_ERR (ptr : Z) : bool := 2 ^ 64 - MAX_ERRNO <=? ptr mod 2 ^ 64.
Definition PTR_ERR (ptr : Z) : Z := to_long ptr.

(** ibs-core.c, line 46. *)
Definition IBS_BUFFER_SIZE : Z := Z.shiftl PAGE_SIZE 8.
Definition IBS_OP_BUFFER_SIZE : Z := IBS_BUFFER_SIZE.
Definition IBS_FETCH_BUFFER_SIZE : Z := IBS_BUFFER_SIZE.

(** ** What the driver's own headers declare

    ibs-structs.h and ibs-uapi.h are not part of the sources at hand: the
    two flavor constants and the sizes of the two sample records are
    parameters of the development. *)
Class Headers := {
  IBS_OP : Z;
  IBS_FETCH : Z;
  sizeof_ibs_op : Z;
  sizeof_ibs_fetch : Z
}.

(** The two per-core areas, [pcpu_op_dev] and [pcpu_fetch_dev], and a
    pointer to one core's device inside an area, as per_cpu_ptr yields. *)
Inductive area := OpArea | FetchArea.

Definition dev_ptr : Type := area * Z.

Definition per_cpu_ptr (a : area) (cpu : Z) : dev_ptr := (a, cpu).

(** ** The machine and the kernel, as the driver observes them *)
Class Platform := {
  (** boot_cpu_data *)
  x86_vendor : Z;
  x86 : Z;
  x86_model : Z;
  (** CPUID, by leaf *)
  cpuid_ecx : Z -> Z;
  cpuid_eax : Z -> Z;
  (** the cores for_each_online_cpu and for_each_possible_cpu visit, the
      same throughout one call of a driver function *)
  online_cpus : list Z;
  possible_cpus : list Z;
  (** does the first, the second alloc_percpu return storage? *)
  alloc_percpu_op_ok : bool;
  alloc_percpu_fetch_ok : bool;
  init_workaround_structs_ret : Z;
  (** result of setup_ibs_buffer, by the device it is called on *)
  setup_ibs_buffer_ret : dev_ptr -> Z;
  register_chrdev_ret : Z;
  (** pointer returned by class_create *)
  class_create_ret : Z;
  (** pointer returned by device_create, by flavor and core *)
  device_create_ret : Z -> Z -> Z;
  register_nmi_handler_ret : Z
}.

(** ** Data *)

(** The eight capability flags, ibs-core.c lines 68-75. *)
Record capability_flags := {
  ibs_fetch_supported : Z;
  ibs_op_supported : Z;
  ibs_brn_trgt_supported : Z;
  ibs_op_cnt_ext_supported : Z;
  ibs_rip_invalid_chk_supported : Z;
  ibs_op_brn_fuse_supported : Z;
  ibs_fetch_ctl_extd_supported : Z;
  ibs_op_data4_supported : Z
}.

(** The three workaround flags, lines 79-87. *)
Record workaround_flags := {
  workaround_fam10h_err_420 : Z;
  workaround_fam15h_err_718 : Z;
  workaround_fam17h_m01h : Z
}.

(** struct ibs_dev, restricted to the members ibs-core.c reads or writes
    and the ring buffer that setup_ibs_buffer and free_ibs_buffer manage.
    Locks, wait queues and the irq_work token carry no data here. *)
Record ibs_dev := {
  cpu : Z;
  flavor : Z;
  entry_size : Z;
  in_use : Z;
  dev_caps : capability_flags;
  dev_workarounds : workaround_flags;
  (** capacity of the ring buffer, [None] when there is none *)
  buf : option Z
}.

Definition no_caps : capability_flags :=
  {| ibs_fetch_supported := 0; ibs_op_supported := 0;
     ibs_brn_trgt_supported := 0; ibs_op_cnt_ext_supported := 0;
     ibs_rip_invalid_chk_supported := 0; ibs_op_brn_fuse_supported := 0;
     ibs_fetch_ctl_extd_supported := 0; ibs_op_data4_supported := 0 |}.

Definition no_workarounds : workaround_flags :=
  {| workaround_fam10h_err_420 := 0; workaround_fam15h_err_718 := 0;
     workaround_fam17h_m01h := 0 |}.

(** A device as alloc_percpu hands it out: zero-filled. *)
Definition zero_dev : ibs_dev :=
  {| cpu := 0; flavor := 0; entry_size := 0; in_use := 0;
     dev_caps := no_caps; dev_workarounds := no_workarounds; buf := None |}.

(** Kernel calls, in the order the driver makes them. *)
Inductive event :=
| EvStartWorkaround (cpu : Z)
| EvStopWorkaround (cpu : Z)
| EvAllocPercpu (a : area)
| EvFreePercpu (a : area)
| EvInitWorkaroundStructs
| EvInitWorkaroundInitialize
| EvFreeWorkaroundStructs
| EvSetupBuffer (dev : dev_ptr)
| EvFreeBuffer (dev : dev_ptr)
| EvRegisterChrdev
| EvUnregisterChrdev (major : Z)
| EvClassCreate
| EvClassDestroy
| EvNotifierRegisterBegin
| EvNotifierRegisterDone
| EvSetupLvt
| EvDeviceCreate (flavor cpu : Z)
| EvDeviceDestroy (flavor cpu : Z)
| EvRegisterHotcpuNotifier
| EvUnregisterHotcpuNotifier
| EvRegisterNmiHandler
| EvUnregisterNmiHandler
| EvDisableOp (dev : dev_ptr) (cpu : Z)
| EvDisableFetch (dev : dev_ptr) (cpu : Z).

(** The state the driver acts on: its file-scope variables, the two
    per-core device areas ([None]: no storage behind the pointer), the
    device handles that exist (by flavor and core, the two arguments of
    IBS_MINOR), the devices whose hardware sampling is switched on and
    the cores on which the static Family 17h workaround runs. *)
Record kstate := {
  caps : capability_flags;
  workarounds : workaround_flags;
  ibs_major : Z;
  ibs_class : Z;
  pcpu_op_dev : option (Z -> ibs_dev);
  pcpu_fetch_dev : option (Z -> ibs_dev);
  handles : gset (Z * Z);
  sampling : gset (Z * Z);
  workaround_active : gset Z
}.

(** The state at module load: every static of the file is zero. *)
Definition load_state (h : gset (Z * Z)) (smp : gset (Z * Z)) (w : gset Z)
  : kstate :=
  {| caps := no_caps; workarounds := no_workarounds;
     ibs_major := 0; ibs_class := 0;
     pcpu_op_dev := None; pcpu_fetch_dev := None;
     handles := h; sampling := smp; workaround_active := w |}.

(** *** Field updates *)

Definition set_caps (c : capability_flags) (s : kstate) : kstate :=
  {| caps := c; workarounds := workarounds s; ibs_major := ibs_major s;
     ibs_class := ibs_class s; pcpu_op_dev := pcpu_op_dev s;
     pcpu_fetch_dev := pcpu_fetch_dev s; handles := handles s;
     sampling := sampling s; workaround_active := workaround_active s |}.

Definition set_workarounds (w : workaround_flags) (s : kstate) : kstate :=
  {| caps := caps s; workarounds := w; ibs_major := ibs_major s;
     ibs_class := ibs_class s; pcpu_op_dev := pcpu_op_dev s;
     pcpu_fetch_dev := pcpu_fetch_dev s; handles := handles s;
     sampling := sampling s; workaround_active := workaround_active s |}.

Definition set_ibs_major (m : Z) (s : kstate) : kstate :=
  {| caps := caps s; workarounds := workarounds s; ibs_major := m;
     ibs_class := ibs_class s; pcpu_op_dev := pcpu_op_dev s;
     pcpu_fetch_dev := pcpu_fetch_dev s; handles := handles s;
     sampling := sampling s; workaround_active := workaround_active s |}.

Definition set_ibs_class (c : Z) (s : kstate) : kstate :=
  {| caps := caps s; workarounds := workarounds s; ibs_major := ibs_major s;
     ibs_class := c; pcpu_op_dev := pcpu_op_dev s;
     pcpu_fetch_dev := pcpu_fetch_dev s; handles := handles s;
     sampling := sampling s; workaround_active := workaround_active s |}.

Definition set_pcpu_op_dev (a : option (Z -> ibs_dev)) (s : kstate) : kstate :=
  {| caps := caps s; workarounds := workarounds s; ibs_major := ibs_major s;
     ibs_class := ibs_class s; pcpu_op_dev := a;
     pcpu_fetch_dev := pcpu_fetch_dev s; handles := handles s;
     sampling := sampling s; workaround_active := workaround_active s |}.

Definition set_pcpu_fetch_dev (a : option (Z -> ibs_dev)) (s : kstate)
  : kstate :=
  {| caps := caps s; workarounds := workarounds s; ibs_major := ibs_major s;
     ibs_class := ibs_class s; pcpu_op_dev := pcpu_op_dev s;
     pcpu_fetch_dev := a; handles := handles s;
     sampling := sampling s; workaround_active := workaround_active s |}.

Definition set_handles (h : gset (Z * Z)) (s : kstate) : kstate :=
  {| caps := caps s; workarounds := workarounds s; ibs_major := ibs_major s;
     ibs_class := ibs_class s; pcpu_op_dev := pcpu_op_dev s;
     pcpu_fetch_dev := pcpu_fetch_dev s; handles := h;
     sampling := sampling s; workaround_active := workaround_active s |}.

Definition set_sampling (h : gset (Z * Z)) (s : kstate) : kstate :=
  {| caps := caps s; workarounds := workarounds s; ibs_major := ibs_major s;
     ibs_class := ibs_class s; pcpu_op_dev := pcpu_op_dev s;
     pcpu_fetch_dev := pcpu_fetch_dev s; handles := handles s;
     sampling := h; workaround_active := workaround_active s |}.

Definition set_workaround_active (w : gset Z) (s : kstate) : kstate :=
  {| caps := caps s; workarounds := workarounds s; ibs_major := ibs_major s;
     ibs_class := ibs_class s; pcpu_op_dev := pcpu_op_dev s;
     pcpu_fetch_dev := pcpu_fetch_dev s; handles := handles s;
     sampling := sampling s; workaround_active := w |}.

(** ** The monad: state passing with a trace of kernel calls *)

Definition M (A : Type) : Type := kstate -> A * kstate * list event.

Definition ret {A} (a : A) : M A := fun s => (a, s, []).

Definition bind {A B} (m : M A) (k : A -> M B) : M B :=
  fun s =>
    let r1 := m s in
    let r2 := k (fst (fst r1)) (snd (fst r1)) in
    (fst (fst r2), snd (fst r2), snd r1 ++ snd r2).

Definition emit (e : event) : M unit := fun s => (tt, s, [e]).
Definition get : M kstate := fun s => (s, s, []).
Definition modify (f : kstate -> kstate) : M unit := fun s => (tt, f s, []).

(** The three components of a run. *)
Definition result {A} (r : A * kstate * list event) : A := fst (fst r).
Definition final {A} (r : A * kstate * list event) : kstate := snd (fst r).
Definition calls {A} (r : A * kstate * list event) : list event := snd r.

Notation "'do' x <- m ; k" := (bind m (fun x => k))
  (at level 10, x name, m at level 100, k at level 200, only parsing).
Notation "'run' m ; k" := (bind m (fun _ => k))
  (at level 10, m at level 100, k at level 200, only parsing).

(** [for (...) body], without a jump out of the loop. *)
Fixpoint for_each (cpus : list Z) (body : Z -> M unit) : M unit :=
  match cpus with
  | [] => ret tt
  | c :: rest => run body c; for_each rest body
  end.

(** *** Assignments to single flags *)

Definition set_ibs_fetch_supported (v : Z) (c : capability_flags) :=
  {| ibs_fetch_supported := v;
     ibs_op_supported := ibs_op_supported c;
     ibs_brn_trgt_supported := ibs_brn_trgt_supported c;
     ibs_op_cnt_ext_supported := ibs_op_cnt_ext_supported c;
     ibs_rip_invalid_chk_supported := ibs_rip_invalid_chk_supported c;
     ibs_op_brn_fuse_supported := ibs_op_brn_fuse_supported c;
     ibs_fetch_ctl_extd_supported := ibs_fetch_ctl_extd_supported c;
     ibs_op_data4_supported := ibs_op_data4_supported c |}.

Definition set_ibs_op_supported (v : Z) (c : capability_flags) :=
  {| ibs_fetch_supported := ibs_fetch_supported c;
     ibs_op_supported := v;
     ibs_brn_trgt_supported := ibs_brn_trgt_supported c;
     ibs_op_cnt_ext_supported := ibs_op_cnt_ext_supported c;
     ibs_rip_invalid_chk_supported := ibs_rip_invalid_chk_supported c;
     ibs_op_brn_fuse_supported := ibs_op_brn_fuse_supported c;
     ibs_fetch_ctl_extd_supported := ibs_fetch_ctl_extd_supported c;
     ibs_op_data4_supported := ibs_op_data4_supported c |}.

Definition set_ibs_brn_trgt_supported (v : Z) (c : capability_flags) :=
  {| ibs_fetch_supported := ibs_fetch_supported c;
     ibs_op_supported := ibs_op_supported c;
     ibs_brn_trgt_supported := v;
     ibs_op_cnt_ext_supported := ibs_op_cnt_ext_supported c;
     ibs_rip_invalid_chk_supported := ibs_rip_invalid_chk_supported c;
     ibs_op_brn_fuse_supported := ibs_op_brn_fuse_supported c;
     ibs_fetch_ctl_extd_supported := ibs_fetch_ctl_extd_supported c;
     ibs_op_data4_supported := ibs_op_data4_supported c |}.

Definition set_ibs_op_cnt_ext_supported (v : Z) (c : capability_flags) :=
  {| ibs_fetch_supported := ibs_fetch_supported c;
     ibs_op_supported := ibs_op_supported c;
     ibs_brn_trgt_supported := ibs_brn_trgt_supported c;
     ibs_op_cnt_ext_supported := v;
     ibs_rip_invalid_chk_supported := ibs_rip_invalid_chk_supported c;
     ibs_op_brn_fuse_supported := ibs_op_brn_fuse_supported c;
     ibs_fetch_ctl_extd_supported := ibs_fetch_ctl_extd_supported c;
     ibs_op_data4_supported := ibs_op_data4_supported c |}.

Definition set_ibs_rip_invalid_chk_supported (v : Z) (c : capability_flags) :=
  {| ibs_fetch_supported := ibs_fetch_supported c;
     ibs_op_supported := ibs_op_supported c;
     ibs_brn_trgt_supported := ibs_brn_trgt_supported c;
     ibs_op_cnt_ext_supported := ibs_op_cnt_ext_supported c;
     ibs_rip_invalid_chk_supported := v;
     ibs_op_brn_fuse_supported := ibs_op_brn_fuse_supported c;
     ibs_fetch_ctl_extd_supported := ibs_fetch_ctl_extd_supported c;
     ibs_op_data4_supported := ibs_op_data4_supported c |}.

Definition set_ibs_op_brn_fuse_supported (v : Z) (c : capability_flags) :=
  {| ibs_fetch_supported := ibs_fetch_supported c;
     ibs_op_supported := ibs_op_supported c;
     ibs_brn_trgt_supported := ibs_brn_trgt_supported c;
     ibs_op_cnt_ext_supported := ibs_op_cnt_ext_supported c;
     ibs_rip_invalid_chk_supported := ibs_rip_invalid_chk_supported c;
     ibs_op_brn_fuse_supported := v;
     ibs_fetch_ctl_extd_supported := ibs_fetch_ctl_extd_supported c;
     ibs_op_data4_supported := ibs_op_data4_supported c |}.

Definition set_ibs_fetch_ctl_extd_supported (v : Z) (c : capability_flags) :=
  {| ibs_fetch_supported := ibs_fetch_supported c;
     ibs_op_supported := ibs_op_supported c;
     ibs_brn_trgt_supported := ibs_brn_trgt_supported c;
     ibs_op_cnt_ext_supported := ibs_op_cnt_ext_supported c;
     ibs_rip_invalid_chk_supported := ibs_rip_invalid_chk_supported c;
     ibs_op_brn_fuse_supported := ibs_op_brn_fuse_supported c;
     ibs_fetch_ctl_extd_supported := v;
     ibs_op_data4_supported := ibs_op_data4_supported c |}.

Definition set_ibs_op_data4_supported (v : Z) (c : capability_flags) :=
  {| ibs_fetch_supported := ibs_fetch_supported c;
     ibs_op_supported := ibs_op_supported c;
     ibs_brn_trgt_supported := ibs_brn_trgt_supported c;
     ibs_op_cnt_ext_supported := ibs_op_cnt_ext_supported c;
     ibs_rip_invalid_chk_supported := ibs_rip_invalid_chk_supported c;
     ibs_op_brn_fuse_supported := ibs_op_brn_fuse_supported c;
     ibs_fetch_ctl_extd_supported := ibs_fetch_ctl_extd_supported c;
     ibs_op_data4_supported := v |}.

Definition set_workaround_fam10h_err_420 (v : Z) (w : workaround_flags) :=
  {| workaround_fam10h_err_420 := v;
     workaround_fam15h_err_718 := workaround_fam15h_err_718 w;
     workaround_fam17h_m01h := workaround_fam17h_m01h w |}.

Definition set_workaround_fam15h_err_718 (v : Z) (w : workaround_flags) :=
  {| workaround_fam10h_err_420 := workaround_fam10h_err_420 w;
     workaround_fam15h_err_718 := v;
     workaround_fam17h_m01h := workaround_fam17h_m01h w |}.

Definition set_workaround_fam17h_m01h (v : Z) (w : workaround_flags) :=
  {| workaround_fam10h_err_420 := workaround_fam10h_err_420 w;
     workaround_fam15h_err_718 := workaround_fam15h_err_718 w;
     workaround_fam17h_m01h := v |}.

(** An assignment to a capability flag, to a workaround flag. *)
Definition assign_cap (f : capability_flags -> capability_flags) : M unit :=
  modify (fun s => set_caps (f (caps s)) s).

Definition assign_workaround (f : workaround_flags -> workaround_flags)
  : M unit :=
  modify (fun s => set_workarounds (f (workarounds s)) s).

(** Where a loop body or a test leaves through a goto, the loop reports
    it together with the value of [err] at that point. *)
Inductive flow :=
| Next (err : Z)
| Jump (err : Z).

(** ** Memory: the per-core areas *)

Definition area_of (a : area) (s : kstate) : option (Z -> ibs_dev) :=
  match a with OpArea => pcpu_op_dev s | FetchArea => pcpu_fetch_dev s end.

Definition set_area (a : area) (m : option (Z -> ibs_dev)) : kstate -> kstate :=
  match a with OpArea => set_pcpu_op_dev m | FetchArea => set_pcpu_fetch_dev m end.

(** The device a pointer designates; a zero device where there is no
    storage (the C code never reads through such a pointer). *)
Definition load_dev (p : dev_ptr) (s : kstate) : ibs_dev :=
  match area_of (fst p) s with
  | Some m => m (snd p)
  | None => zero_dev
  end.

(** A store through a device pointer; nothing where there is no storage. *)
Definition update_dev (p : dev_ptr) (f : ibs_dev -> ibs_dev) : M unit :=
  modify (fun s =>
    match area_of (fst p) s with
    | Some m =>
        set_area (fst p)
          (Some (fun c => if Z.eq_dec c (snd p) then f (m c) else m c)) s
    | None => s
    end).

Definition set_buf (b : option Z) (d : ibs_dev) : ibs_dev :=
  {| cpu := cpu d; flavor := flavor d; entry_size := entry_size d;
     in_use := in_use d; dev_caps := dev_caps d;
     dev_workarounds := dev_workarounds d; buf := b |}.

Section Driver.
Context {hdr : Headers} {plat : Platform}.

(** ** Kernel services *)

(** alloc_percpu(struct ibs_dev), assigned to the pointer of area [a]:
    zero-filled storage for every core, or NULL. *)
Definition alloc_percpu (a : area) (ok : bool) : M bool :=
  run emit (EvAllocPercpu a);
  run modify (set_area a (if ok then Some (fun _ => zero_dev) else None));
  ret ok.

Definition free_percpu (a : area) : M unit :=
  run emit (EvFreePercpu a);
  modify (set_area a None).

Definition register_chrdev : M Z :=
  run emit EvRegisterChrdev;
  ret register_chrdev_ret.

Definition unregister_chrdev : M unit :=
  do s <- get;
  emit (EvUnregisterChrdev (ibs_major s)).

Definition class_create : M Z :=
  run emit EvClassCreate;
  ret class_create_ret.

Definition class_destroy : M unit := emit EvClassDestroy.

(** device_create for the device number of ([flavor], [cpu]): on success
    the handle exists afterwards. *)
Definition device_create (flavor cpu : Z) : M Z :=
  run emit (EvDeviceCreate flavor cpu);
  let dev := device_create_ret flavor cpu in
  run (if IS_ERR dev then ret tt
       else modify (fun s => set_handles (handles s ∪ {[ (flavor, cpu) ]}) s));
  ret dev.

(** device_destroy: the handle is gone afterwards, whether or not it
    existed. *)
Definition device_destroy (flavor cpu : Z) : M unit :=
  run emit (EvDeviceDestroy flavor cpu);
  modify (fun s => set_handles (handles s ∖ {[ (flavor, cpu) ]}) s).

Definition register_nmi_handler : M Z :=
  run emit EvRegisterNmiHandler;
  ret register_nmi_handler_ret.

(** ** Helpers of the driver that live in other files *)

(** Modelled from the spec: start_fam17h_m01h_static_workaround
    (ibs-workarounds.c is missing) engages the continuous workaround on a
    core; applying it twice is the same as once. *)
Definition start_fam17h_m01h_static_workaround (cpu : Z) : M unit :=
  run emit (EvStartWorkaround cpu);
  modify (fun s => set_workaround_active (workaround_active s ∪ {[ cpu ]}) s).

(** Modelled from the spec: stop_fam17h_m01h_static_workaround
    (ibs-workarounds.c is missing) reverts the workaround on a core. *)
Definition stop_fam17h_m01h_static_workaround (cpu : Z) : M unit :=
  run emit (EvStopWorkaround cpu);
  modify (fun s => set_workaround_active (workaround_active s ∖ {[ cpu ]}) s).

(** Modelled from the spec: init_workaround_structs, its per-core
    initialisation and free_workaround_structs (ibs-workarounds.c is
    missing) only manage the engine's own storage. *)
Definition init_workaround_structs : M Z :=
  run emit EvInitWorkaroundStructs;
  ret init_workaround_structs_ret.

Definition init_workaround_initialize : M unit :=
  emit EvInitWorkaroundInitialize.

Definition free_workaround_structs : M unit :=
  emit EvFreeWorkaroundStructs.

(** Modelled from the spec: setup_ibs_buffer (ibs-utils.c is missing)
    allocates the device's ring buffer of the given capacity and returns
    0, or returns an error and allocates nothing. *)
Definition setup_ibs_buffer (dev : dev_ptr) (size : Z) : M Z :=
  run emit (EvSetupBuffer dev);
  let r := setup_ibs_buffer_ret dev in
  run (if r =? 0 then update_dev dev (set_buf (Some size)) else ret tt);
  ret r.

(** Modelled from the spec: free_ibs_buffer (ibs-utils.c is missing)
    frees the device's ring buffer. *)
Definition free_ibs_buffer (dev : dev_ptr) : M unit :=
  run emit (EvFreeBuffer dev);
  update_dev dev (set_buf None).

(** Modelled from the spec: disable_ibs_op_on_cpu and
    disable_ibs_fetch_on_cpu (ibs-utils.c is missing) turn hardware
    sampling of their flavor off on the core; they do not look at the
    device's in-use flag. *)
Definition disable_ibs_op_on_cpu (dev : dev_ptr) (cpu : Z) : M unit :=
  run emit (EvDisableOp dev cpu);
  modify (fun s => set_sampling (sampling s ∖ {[ (IBS_OP, cpu) ]}) s).

Definition disable_ibs_fetch_on_cpu (dev : dev_ptr) (cpu : Z) : M unit :=
  run emit (EvDisableFetch dev cpu);
  modify (fun s => set_sampling (sampling s ∖ {[ (IBS_FETCH, cpu) ]}) s).

(** ** ibs-core.c *)

(** Lines 107-132. *)
Definition init_ibs_dev (g : kstate) (d : ibs_dev) (cpu' : Z) : ibs_dev :=
  {| cpu := cpu';
     flavor := flavor d;
     entry_size := entry_size d;
     in_use := 0;
     dev_caps :=
       {| ibs_fetch_supported := ibs_fetch_supported (caps g);
          ibs_op_supported := ibs_op_supported (caps g);
          ibs_brn_trgt_supported := ibs_brn_trgt_supported (caps g);
          ibs_op_cnt_ext_supported := ibs_op_cnt_ext_supported (caps g);
          ibs_rip_invalid_chk_supported :=
            ibs_rip_invalid_chk_supported (caps g);
          ibs_op_brn_fuse_supported := ibs_op_brn_fuse_supported (caps g);
          ibs_fetch_ctl_extd_supported :=
            ibs_fetch_ctl_extd_supported (caps g);
          ibs_op_data4_supported := ibs_op_data4_supported (caps g) |};
     dev_workarounds :=
       {| workaround_fam10h_err_420 :=
            workaround_fam10h_err_420 (workarounds g);
          workaround_fam15h_err_718 :=
            workaround_fam15h_err_718 (workarounds g);
          workaround_fam17h_m01h := workaround_fam17h_m01h (workarounds g) |};
     buf := buf d |}.

Definition set_flavor_entry_size (fl sz : Z) (d : ibs_dev) : ibs_dev :=
  {| cpu := cpu d; flavor := fl; entry_size := sz; in_use := in_use d;
     dev_caps := dev_caps d; dev_workarounds := dev_workarounds d;
     buf := buf d |}.

(** Lines 134-140. *)
Definition init_ibs_op_dev (g : kstate) (d : ibs_dev) (cpu : Z) : ibs_dev :=
  set_flavor_entry_size IBS_OP sizeof_ibs_op (init_ibs_dev g d cpu).

(** Lines 142-148. *)
Definition init_ibs_fetch_dev (g : kstate) (d : ibs_dev) (cpu : Z) : ibs_dev :=
  set_flavor_entry_size IBS_FETCH sizeof_ibs_fetch (init_ibs_dev g d cpu).

(** The two initialisers called on a device pointer. *)
Definition init_ibs_op_dev_at (dev : dev_ptr) (cpu : Z) : M unit :=
  do g <- get;
  update_dev dev (fun d => init_ibs_op_dev g d cpu).

Definition init_ibs_fetch_dev_at (dev : dev_ptr) (cpu : Z) : M unit :=
  do g <- get;
  update_dev dev (fun d => init_ibs_fetch_dev g d cpu).

(** Lines 150-178: programs the local APIC of the executing core; no
    variable of the driver is involved. *)
Definition ibs_setup_lvt : M unit := emit EvSetupLvt.

(** Lines 180-200. *)
Definition ibs_device_create (flavor cpu : Z) : M Z :=
  do dev <- device_create flavor cpu;
  ret (if IS_ERR dev then to_int (PTR_ERR dev) else 0).

(** Lines 202-205. *)
Definition ibs_device_destroy (flavor cpu : Z) : M unit :=
  device_destroy flavor cpu.

(** Lines 208-243.  [hcpu] is the pointer-sized core argument. *)
Definition ibs_class_cpu_callback (action hcpu : Z) : M Z :=
  let cpu := to_uint hcpu in
  do err <-
    (if action =? CPU_UP_PREPARE then
       do err <- ibs_device_create IBS_OP (to_int cpu);
       if negb (err =? 0) then ret err else
       do err <- ibs_device_create IBS_FETCH (to_int cpu);
       run (if negb (err =? 0) then ibs_device_destroy IBS_OP (to_int cpu)
            else ret tt);
       ret err
     else if action =? CPU_ONLINE then
       run ibs_setup_lvt;
       do s <- get;
       run (if negb (workaround_fam17h_m01h (workarounds s) =? 0)
            then start_fam17h_m01h_static_workaround cpu else ret tt);
       ret 0
     else if (action =? CPU_UP_CANCELED)
             || (action =? CPU_UP_CANCELED_FROZEN)
             || (action =? CPU_DEAD) then
       run ibs_device_destroy IBS_OP (to_int cpu);
       run ibs_device_destroy IBS_FETCH (to_int cpu);
       ret 0
     else if action =? CPU_DOWN_PREPARE then
       run disable_ibs_op_on_cpu (per_cpu_ptr OpArea cpu) cpu;
       run disable_ibs_fetch_on_cpu (per_cpu_ptr FetchArea cpu) cpu;
       do s <- get;
       run (if negb (workaround_fam17h_m01h (workarounds s) =? 0)
            then stop_fam17h_m01h_static_workaround cpu else ret tt);
       ret 0
     else ret 0);
  ret (notifier_from_errno err).

(** The two CPUID words the prober reads into [unsigned int feature_id]:
    CPUID_Fn8000_0001 ECX and CPUID_Fn8000_001B EAX. *)
Definition feature_word : Z := to_uint (cpuid_ecx 0x80000001).
Definition capability_word : Z := to_uint (cpuid_eax 0x8000001B).

(** Lines 332-368: the part of the prober that reads the capability
    word. *)
Definition check_capability_flags : M Z :=
  let feature_id := capability_word in
  if Z.land feature_id 1 =? 0 then ret (- EINVAL) else
  run assign_cap
        (set_ibs_fetch_supported (Z.land feature_id (Z.shiftl 1 1)));
  run assign_cap
        (set_ibs_op_supported (Z.land feature_id (Z.shiftl 1 2)));
  run assign_cap (fun c =>
        set_ibs_op_supported
          (Z.lor (ibs_op_supported c) (Z.land feature_id (Z.shiftl 1 3))) c);
  run assign_cap (fun c =>
        set_ibs_op_supported
          (Z.lor (ibs_op_supported c) (Z.land feature_id (Z.shiftl 1 4))) c);
  do s <- get;
  if (ibs_fetch_supported (caps s) =? 0) && (ibs_op_supported (caps s) =? 0)
  then ret (- EINVAL) else
  run assign_cap
        (set_ibs_brn_trgt_supported (Z.land feature_id (Z.shiftl 1 5)));
  run assign_cap
        (set_ibs_op_cnt_ext_supported (Z.land feature_id (Z.shiftl 1 6)));
  run assign_cap
        (set_ibs_rip_invalid_chk_supported (Z.land feature_id (Z.shiftl 1 7)));
  run assign_cap
        (set_ibs_op_brn_fuse_supported (Z.land feature_id (Z.shiftl 1 8)));
  run assign_cap
        (set_ibs_fetch_ctl_extd_supported (Z.land feature_id (Z.shiftl 1 9)));
  run assign_cap
        (set_ibs_op_data4_supported (Z.land feature_id (Z.shiftl 1 10)));
  ret 0.

(** Lines 277-369. *)
Definition check_for_ibs_support : M Z :=
  if negb (x86_vendor =? X86_VENDOR_AMD) then ret (- EINVAL) else
  if (x86 <? 0x10) || (x86 =? 0x11) then ret (- EINVAL) else
  run (if x86 =? 0x10
       then assign_workaround (set_workaround_fam10h_err_420 1)
       else ret tt);
  run (if (x86 =? 0x15) && (x86_model <=? 0x1f)
       then assign_workaround (set_workaround_fam15h_err_718 1)
       else ret tt);
  let feature_id := feature_word in
  do s <- get;
  if (Z.land feature_id (Z.shiftl 1 10) =? 0)
     && (workaround_fam17h_m01h (workarounds s) =? 0)
  then
    if (x86 =? 0x17) && (x86_model =? 0x1) then
      run assign_workaround (set_workaround_fam17h_m01h 1);
      run for_each online_cpus start_fam17h_m01h_static_workaround;
      check_capability_flags
    else ret (- EINVAL)
  else check_capability_flags.

(** Lines 510-516, label out_buffers. *)
Definition out_buffers (err : Z) : M Z :=
  run for_each possible_cpus (fun cpu =>
        run free_ibs_buffer (per_cpu_ptr FetchArea cpu);
        free_ibs_buffer (per_cpu_ptr OpArea cpu));
  run free_percpu FetchArea;
  run free_percpu OpArea;
  ret err.

(** Lines 504-509, label out_chrdev. *)
Definition out_chrdev (err : Z) : M Z :=
  run unregister_chrdev;
  out_buffers err.

(** Lines 489-503, label out_class. *)
Definition out_class (err : Z) : M Z :=
  run for_each online_cpus (fun cpu =>
        run ibs_device_destroy IBS_OP (to_int cpu);
        ibs_device_destroy IBS_FETCH (to_int cpu));
  run class_destroy;
  run emit EvUnregisterHotcpuNotifier;
  run emit EvNotifierRegisterDone;
  out_chrdev err.

(** Lines 483-488, label out_device. *)
Definition out_device (err : Z) : M Z :=
  run emit EvNotifierRegisterBegin;
  out_class err.

(** Lines 399-415: the loop over the possible cores; [Jump] stands for
    the goto to err_buffers. *)
Fixpoint setup_devices (cpus : list Z) (err : Z) : M flow :=
  match cpus with
  | [] => ret (Next err)
  | cpu :: rest =>
      run init_ibs_op_dev_at (per_cpu_ptr OpArea cpu) (to_int cpu);
      do err <- setup_ibs_buffer (per_cpu_ptr OpArea cpu) IBS_OP_BUFFER_SIZE;
      if negb (err =? 0) then ret (Jump err) else
      run init_ibs_fetch_dev_at (per_cpu_ptr FetchArea cpu) (to_int cpu);
      do err <-
        setup_ibs_buffer (per_cpu_ptr FetchArea cpu) IBS_FETCH_BUFFER_SIZE;
      if negb (err =? 0) then ret (Jump err) else
      run init_workaround_initialize;
      setup_devices rest err
  end.

(** Lines 450-459: the loop over the online cores; [Jump] stands for the
    goto to out_class. *)
Fixpoint create_devices (cpus : list Z) (err : Z) : M flow :=
  match cpus with
  | [] => ret (Next err)
  | cpu :: rest =>
      do s <- get;
      do err <-
        (if negb (ibs_op_supported (caps s) =? 0)
         then ibs_device_create IBS_OP (to_int cpu) else ret err);
      if negb (err =? 0) then ret (Jump err) else
      do s <- get;
      do err <-
        (if negb (ibs_fetch_supported (caps s) =? 0)
         then ibs_device_create IBS_FETCH (to_int cpu) else ret err);
      if negb (err =? 0) then ret (Jump err) else
      create_devices rest err
  end.

(** Lines 371-519. *)
Definition ibs_init : M Z :=
  do err <- check_for_ibs_support;
  if err <? 0 then ret err else
  do op_ok <- alloc_percpu OpArea alloc_percpu_op_ok;
  if negb op_ok then ret (- ENOMEM) else
  do fetch_ok <- alloc_percpu FetchArea alloc_percpu_fetch_ok;
  if negb fetch_ok then
    run free_percpu OpArea;
    ret (- ENOMEM)
  else
  do r <- init_workaround_structs;
  if negb (r =? 0) then
    run free_percpu OpArea;
    run free_percpu FetchArea;
    ret (- ENOMEM)
  else
  do fl <- setup_devices possible_cpus err;
  match fl with
  | Jump err => out_buffers err
  | Next err =>
      do major <- register_chrdev;
      run modify (set_ibs_major major);
      if major <? 0 then out_buffers err else
      do cls <- class_create;
      run modify (set_ibs_class cls);
      if IS_ERR cls then out_chrdev (to_int (PTR_ERR cls)) else
      run emit EvNotifierRegisterBegin;
      run for_each online_cpus (fun _ => ibs_setup_lvt);
      do fl <- create_devices online_cpus err;
      match fl with
      | Jump err => out_class err
      | Next _ =>
          run emit EvRegisterHotcpuNotifier;
          run emit EvNotifierRegisterDone;
          do err <- register_nmi_handler;
          if negb (err =? 0) then out_device err else ret err
      end
  end.

(** Lines 521-569. *)
Definition ibs_exit : M unit :=
  run emit EvUnregisterNmiHandler;
  run emit EvNotifierRegisterBegin;
  run for_each online_cpus (fun cpu =>
        do s <- get;
        run (if negb (ibs_op_supported (caps s) =? 0)
             then ibs_device_destroy IBS_OP (to_int cpu) else ret tt);
        do s <- get;
        if negb (ibs_fetch_supported (caps s) =? 0)
        then ibs_device_destroy IBS_FETCH (to_int cpu) else ret tt);
  run class_destroy;
  run unregister_chrdev;
  run emit EvUnregisterHotcpuNotifier;
  run emit EvNotifierRegisterDone;
  run for_each possible_cpus (fun cpu =>
        run free_ibs_buffer (per_cpu_ptr FetchArea cpu);
        run free_ibs_buffer (per_cpu_ptr OpArea cpu);
        do s <- get;
        if negb (workaround_fam17h_m01h (workarounds s) =? 0)
        then stop_fam17h_m01h_static_workaround cpu else ret tt);
  run free_percpu FetchArea;
  run free_percpu OpArea;
  free_workaround_structs.

End Driver.

(** ** Vocabulary of the specification *)

(** A capability word reports IBS sampling support: the flags-valid bit
    (bit 0) is set and so is the fetch bit (bit 1) or one of the three op
    bits (bits 2, 3, 4). *)
Definition reports_sampling (f : Z) : bool :=
  Z.testbit f 0
  && (Z.testbit f 1 || (Z.testbit f 2 || Z.testbit f 3 || Z.testbit f 4)).

(** A notifier result that fails the transition: the stop bit is set and
    the result decodes to a negative errno. *)
Definition notifier_fails (ret err : Z) : Prop :=
  Z.land ret NOTIFY_STOP_MASK = NOTIFY_STOP_MASK
  /\ notifier_to_errno ret = err /\ err < 0.

(** The place of a call in the teardown order the specification gives:
    NMI handler, hot-plug subscription, device handles, naming
    infrastructure, buffers and device storage, continuous workaround. *)
Definition teardown_stage (e : event) : option nat :=
  match e with
  | EvUnregisterNmiHandler => Some 0%nat
  | EvUnregisterHotcpuNotifier => Some 1%nat
  | EvDeviceDestroy _ _ => Some 2%nat
  | EvClassDestroy | EvUnregisterChrdev _ => Some 3%nat
  | EvFreeBuffer _ | EvFreePercpu _ => Some 4%nat
  | EvStopWorkaround _ => Some 5%nat
  | _ => None
  end.

Fixpoint nondecreasing (l : list nat) : bool :=
  match l with
  | a :: (b :: _) as rest => (a <=? b)%nat && nondecreasing rest
  | _ => true
  end.

(** A sequence of calls follows the specification's teardown order. *)
Definition in_specified_order (l : list event) : Prop :=
  nondecreasing (omap teardown_stage l) = true.

Section Vocabulary.
Context {hdr : Headers} {plat : Platform}.

(** The workaround flags once the family tests of lines 297-309 are
    done. *)
Definition family_workarounds (w : workaround_flags) : workaround_flags :=
  let w := if x86 =? 0x10 then set_workaround_fam10h_err_420 1 w else w in
  if (x86 =? 0x15) && (x86_model <=? 0x1f)
  then set_workaround_fam15h_err_718 1 w else w.

(** A call, if it creates a device handle, creates one of a flavor that
    the capability flags [c] declare supported. *)
Definition creates_supported (c : capability_flags) (e : event) : Prop :=
  match e with
  | EvDeviceCreate fl _ =>
      (fl = IBS_OP /\ ibs_op_supported c <> 0)
      \/ (fl = IBS_FETCH /\ ibs_fetch_supported c <> 0)
  | _ => True
  end.

(** A run from [s] leaves the capability flags alone and creates handles
    of supported flavors only. *)
Definition respects {A} (m : M A) (s : kstate) : Prop :=
  caps (final (m s)) = caps s
  /\ Forall (creates_supported (caps s)) (calls (m s)).

(** The calls that free one core's two ring buffers. *)
Definition free_buffers_calls (c : Z) : list event :=
  [EvFreeBuffer (per_cpu_ptr FetchArea c); EvFreeBuffer (per_cpu_ptr OpArea c)].

(** The calls that destroy one online core's handles, by capability. *)
Definition destroy_calls (c : capability_flags) (cpu : Z) : list event :=
  (if ibs_op_supported c =? 0 then []
   else [EvDeviceDestroy IBS_OP (to_int cpu)])
  ++ (if ibs_fetch_supported c =? 0 then []
      else [EvDeviceDestroy IBS_FETCH (to_int cpu)]).

(** The calls that release one possible core: its two buffers and, with
    the Family 17h flag set, its workaround. *)
Definition release_calls (w : workaround_flags) (cpu : Z) : list event :=
  free_buffers_calls cpu
  ++ (if workaround_fam17h_m01h w =? 0 then [] else [EvStopWorkaround cpu]).

(** The file-scope variables ibs_exit reads are those of [s]. *)
Definition same_variables (s s' : kstate) : Prop :=
  caps s' = caps s /\ workarounds s' = workarounds s
  /\ ibs_major s' = ibs_major s.

End Vocabulary.

(** ** ibs_init, stage by stage

    The body of ibs_init cut at its gotos: each stage runs one step of the
    start-up and either unwinds or hands over to the next. *)

Section Stages.
Context {hdr : Headers} {plat : Platform}.

(** Lines 460-481. *)
Definition register_notifiers : M Z :=
  run emit EvRegisterHotcpuNotifier;
  run emit EvNotifierRegisterDone;
  do err <- register_nmi_handler;
  if negb (err =? 0) then out_device err else ret err.

(** Lines 440-459. *)
Definition create_handles (err : Z) : M Z :=
  run emit EvNotifierRegisterBegin;
  run for_each online_cpus (fun _ => ibs_setup_lvt);
  do fl <- create_devices online_cpus err;
  match fl with
  | Jump err => out_class err
  | Next _ => register_notifiers
  end.

(** Lines 427-438. *)
Definition create_class (err : Z) : M Z :=
  do cls <- class_create;
  run modify (set_ibs_class cls);
  if IS_ERR cls then out_chrdev (to_int (PTR_ERR cls))
  else create_handles err.

(** Lines 417-425. *)
Definition get_device_number (err : Z) : M Z :=
  do major <- register_chrdev;
  run modify (set_ibs_major major);
  if major <? 0 then out_buffers err else create_class err.

(** Lines 399-415. *)
Definition set_up_buffers (err : Z) : M Z :=
  do fl <- setup_devices possible_cpus err;
  match fl with
  | Jump err => out_buffers err
  | Next err => get_device_number err
  end.

(** Lines 382-397. *)
Definition allocate_storage (err : Z) : M Z :=
  do op_ok <- alloc_percpu OpArea alloc_percpu_op_ok;
  if negb op_ok then ret (- ENOMEM) else
  do fetch_ok <- alloc_percpu FetchArea alloc_percpu_fetch_ok;
  if negb fetch_ok then
    run free_percpu OpArea;
    ret (- ENOMEM)
  else
  do r <- init_workaround_structs;
  if negb (r =? 0) then
    run free_percpu OpArea;
    run free_percpu FetchArea;
    ret (- ENOMEM)
  else set_up_buffers err.

(** Every kernel service ibs_init asks after the prober succeeds. *)
Definition services_succeed : Prop :=
  alloc_percpu_op_ok = true /\ alloc_percpu_fetch_ok = true
  /\ init_workaround_structs_ret = 0
  /\ (forall d, setup_ibs_buffer_ret d = 0)
  /\ 0 <= register_chrdev_ret
  /\ IS_ERR class_create_ret = false
  /\ (forall fl c, IS_ERR (device_create_ret fl c) = false)
  /\ register_nmi_handler_ret = 0.

(** The two handles of each of the cores [cpus]. *)
Definition core_handles (cpus : list Z) : gset (Z * Z) :=
  list_to_set
    (flat_map (fun c => [(IBS_OP, to_int c); (IBS_FETCH, to_int c)]) cpus).

(** The handles of the cores [cpus] for the flavors that the capability
    flags [c] declare supported. *)
Definition supported_handles (c : capability_flags) (cpus : list Z)
  : gset (Z * Z) :=
  list_to_set
    (flat_map
       (fun cpu =>
          (if ibs_op_supported c =? 0 then [] else [(IBS_OP, to_int cpu)])
          ++ (if ibs_fetch_supported c =? 0 then []
              else [(IBS_FETCH, to_int cpu)]))
       cpus).

(** A device of core [c] as the loop over the possible cores leaves it:
    initialised for its flavor from the variables of [g], with a ring
    buffer of the fixed capacity. *)
Definition dev_ready (g : kstate) (fl sz : Z) (c : Z) (d : ibs_dev) : Prop :=
  cpu d = to_int c /\ flavor d = fl /\ entry_size d = sz /\ in_use d = 0
  /\ dev_caps d = caps g /\ dev_workarounds d = workarounds g
  /\ buf d = Some IBS_BUFFER_SIZE.

(** The result of the first buffer allocation that fails when the loop
    over [cpus] asks for the op and then the fetch buffer of each. *)
Fixpoint first_buffer_error (cpus : list Z) : option Z :=
  match cpus with
  | [] => None
  | c :: rest =>
      if negb (setup_ibs_buffer_ret (per_cpu_ptr OpArea c) =? 0)
      then Some (setup_ibs_buffer_ret (per_cpu_ptr OpArea c))
      else if negb (setup_ibs_buffer_ret (per_cpu_ptr FetchArea c) =? 0)
      then Some (setup_ibs_buffer_ret (per_cpu_ptr FetchArea c))
      else first_buffer_error rest
  end.

End Stages.

Section Outcomes.
Context {hdr : Headers} {plat : Platform}.

(** The calls of one round of the loop over the possible cores when both
    buffers are allocated, and of one round of the loop over the online
    cores when every creation succeeds. *)
Definition setup_calls (c : Z) : list event :=
  [EvSetupBuffer (per_cpu_ptr OpArea c);
   EvSetupBuffer (per_cpu_ptr FetchArea c);
   EvInitWorkaroundInitialize].

Definition create_calls (c : capability_flags) (cpu : Z) : list event :=
  (if ibs_op_supported c =? 0 then []
   else [EvDeviceCreate IBS_OP (to_int cpu)])
  ++ (if ibs_fetch_supported c =? 0 then []
      else [EvDeviceCreate IBS_FETCH (to_int cpu)]).

(** The calls of label out_class for the cores [cpus], up to the jump to
    out_chrdev. *)
Definition out_class_calls (cpus : list Z) : list event :=
  flat_map (fun c => [EvDeviceDestroy IBS_OP (to_int c);
                      EvDeviceDestroy IBS_FETCH (to_int c)]) cpus
  ++ [EvClassDestroy; EvUnregisterHotcpuNotifier; EvNotifierRegisterDone].

(** The calls of label out_buffers. *)
Definition out_buffers_calls : list event :=
  flat_map free_buffers_calls possible_cpus
  ++ [EvFreePercpu FetchArea; EvFreePercpu OpArea].

(** The errno of the first handle creation that fails when the loop over
    [cpus] creates the handles of the flavors that [c] declares
    supported. *)
Fixpoint first_create_error (c : capability_flags) (cpus : list Z)
  : option Z :=
  match cpus with
  | [] => None
  | cpu :: rest =>
      if negb (ibs_op_supported c =? 0)
         && IS_ERR (device_create_ret IBS_OP (to_int cpu))
      then Some (to_int (PTR_ERR (device_create_ret IBS_OP (to_int cpu))))
      else if negb (ibs_fetch_supported c =? 0)
              && IS_ERR (device_create_ret IBS_FETCH (to_int cpu))
      then Some (to_int (PTR_ERR (device_create_ret IBS_FETCH (to_int cpu))))
      else first_create_error c rest
  end.

End Outcomes.

(** Is there storage behind the two per-core pointers? *)
Definition storage (s : kstate) : bool * bool :=
  (match pcpu_op_dev s with Some _ => true | None => false end,
   match pcpu_fetch_dev s with Some _ => true | None => false end).

(** A run of module load went through: it returned 0 with both per-core
    areas in place and the NMI handler registered last. *)
Definition load_completed (r : Z * kstate * list event) : Prop :=
  result r = 0 /\ storage (final r) = (true, true)
  /\ exists before, calls r = before ++ [EvRegisterNmiHandler].

(** A run of module load was unwound: no per-core area is left and no
    handle exists that is not among [h]. *)
Definition load_unwound (h : gset (Z * Z)) (r : Z * kstate * list event)
  : Prop :=
  storage (final r) = (false, false) /\ handles (final r) ⊆ h.

(** [f] does not read the per-core areas; [f] does not read the
    handles. *)
Definition ignores_areas {X} (f : kstate -> X) : Prop :=
  forall a m s, f (set_area a m s) = f s.

Definition ignores_handles {X} (f : kstate -> X) : Prop :=
  forall h s, f (set_handles h s) = f s.

(** A run of [m] never changes what [f] reads from the state. *)
Definition preserves {X A} (f : kstate -> X) (m : M A) : Prop :=
  forall s, f (final (m s)) = f s.

(** ** Concrete machines *)

(** One set of values for what the absent headers declare. *)
Definition example_headers : Headers :=
  {| IBS_OP := 0; IBS_FETCH := 1; sizeof_ibs_op := 104;
     sizeof_ibs_fetch := 72 |}.

(** A pointer to a kernel object, and ERR_PTR(-ENOMEM). *)
Definition some_object : Z := 0xffff880012345000.
Definition err_ptr_enomem : Z := 2 ^ 64 - ENOMEM.

(** A machine with cores 0 and 1 online and 0 to 3 possible, on which
    every kernel service succeeds unless said otherwise. *)
Definition machine (family model ecx eax chrdev : Z) (dev : Z -> Z -> Z)
  : Platform :=
  {| x86_vendor := X86_VENDOR_AMD; x86 := family; x86_model := model;
     cpuid_ecx := fun leaf => if leaf =? 0x80000001 then ecx else 0;
     cpuid_eax := fun leaf => if leaf =? 0x8000001B then eax else 0;
     online_cpus := [0; 1]; possible_cpus := [0; 1; 2; 3];
     alloc_percpu_op_ok := true; alloc_percpu_fetch_ok := true;
     init_workaround_structs_ret := 0;
     setup_ibs_buffer_ret := fun _ => 0;
     register_chrdev_ret := chrdev;
     class_create_ret := some_object;
     device_create_ret := dev;
     register_nmi_handler_ret := 0 |}.

(** Family 15h Model 02h: CPUID reports IBS with every capability. *)
Definition fam15h : Platform :=
  machine 0x15 0x2 (Z.shiftl 1 10) 0x7ff 250 (fun _ _ => some_object).

(** The same machine when no character-device number can be had
    (-EBUSY). *)
Definition fam15h_no_chrdev : Platform :=
  machine 0x15 0x2 (Z.shiftl 1 10) 0x7ff (-16) (fun _ _ => some_object).

(** The same machine when the fetch handle of a core cannot be created. *)
Definition fam15h_no_fetch_handle : Platform :=
  machine 0x15 0x2 (Z.shiftl 1 10) 0x7ff 250
    (fun fl _ => if fl =? 1 then err_ptr_enomem else some_object).

(** Family 15h with a capability word whose flags-valid bit is clear. *)
Definition fam15h_no_capabilities : Platform :=
  machine 0x15 0x2 (Z.shiftl 1 10) 0 250 (fun _ _ => some_object).

(** Family 17h Model 01h with the IBS feature bit hidden; op sampling
    only. *)
Definition fam17h_m01h : Platform :=
  machine 0x17 0x1 0 0x1d 250 (fun _ _ => some_object).

(** The driver's state when the module is loaded on an idle machine. *)
Definition fresh : kstate := load_state ∅ ∅ ∅.

(** The state in which the loaded driver runs on [fam17h_m01h]. *)
Definition fam17h_loaded : kstate :=
  final (ibs_init (hdr := example_headers) (plat := fam17h_m01h) fresh).

(** * Properties *)

(** ** Runs of the monad *)

Lemma result_bind {A B} (m : M A) (k : A -> M B) s :
  result (bind m k s) = result (k (result (m s)) (final (m s))).
Proof. reflexivity. Qed.

Lemma final_bind {A B} (m : M A) (k : A -> M B) s :
  final (bind m k s) = final (k (result (m s)) (final (m s))).
Proof. reflexivity. Qed.

Lemma calls_bind {A B} (m : M A) (k : A -> M B) s :
  calls (bind m k s) = calls (m s) ++ calls (k (result (m s)) (final (m s))).
Proof. reflexivity. Qed.

(** A run is its three components. *)
Lemma run_eta {A} (r : A * kstate * list event) :
  r = (result r, final r, calls r).
Proof. destruct r as [[a s] l]. reflexivity. Qed.

Ltac msimpl :=
  cbn [bind ret emit get modify result final calls fst snd app
       assign_cap assign_workaround negb andb orb];
  cbn [caps workarounds ibs_major ibs_class pcpu_op_dev pcpu_fetch_dev
       handles sampling workaround_active
       set_caps set_workarounds set_ibs_major set_ibs_class
       set_pcpu_op_dev set_pcpu_fetch_dev set_handles set_sampling
       set_workaround_active area_of set_area
       ibs_fetch_supported ibs_op_supported
       set_ibs_fetch_supported set_ibs_op_supported
       set_ibs_brn_trgt_supported set_ibs_op_cnt_ext_supported
       set_ibs_rip_invalid_chk_supported set_ibs_op_brn_fuse_supported
       set_ibs_fetch_ctl_extd_supported set_ibs_op_data4_supported
       workaround_fam10h_err_420 workaround_fam15h_err_718
       workaround_fam17h_m01h set_workaround_fam10h_err_420
       set_workaround_fam15h_err_718 set_workaround_fam17h_m01h].

(** The same on a run that is not under a projection. *)
Ltac mexec :=
  unfold bind, ret, emit, get, modify, assign_cap, assign_workaround;
  msimpl.

(** Case analysis on every test a run branches on. *)
Ltac case_ifs :=
  cbv zeta;
  repeat match goal with
         | |- context [ if ?b then _ else _ ] => destruct b
         end.

(** Membership goals on sets of handles and cores. *)
Ltac sets := set_unfold; intuition (subst; auto; congruence).

(** ** Bits *)

Lemma land_bit_zero (f k : Z) :
  0 <= k -> (Z.land f (Z.shiftl 1 k) =? 0) = negb (Z.testbit f k).
Proof.
  intros Hk. rewrite Z.shiftl_1_l.
  destruct (Z.testbit f k) eqn:Hb; cbn.
  - apply Z.eqb_neq. intros H0.
    assert (Hc : Z.testbit (Z.land f (2 ^ k)) k = true).
    { rewrite Z.land_spec, Hb, Z.pow2_bits_true by lia. reflexivity. }
    rewrite H0, Z.bits_0 in Hc. discriminate.
  - apply Z.eqb_eq. apply Z.bits_inj'. intros n Hn.
    rewrite Z.land_spec, Z.bits_0, Z.pow2_bits_eqb by lia.
    destruct (Z.eqb_spec k n) as [E|E].
    + subst n. rewrite Hb. reflexivity.
    + apply andb_false_r.
Qed.

Lemma land_one_zero (f : Z) : (Z.land f 1 =? 0) = negb (Z.testbit f 0).
Proof. apply (land_bit_zero f 0). lia. Qed.

Lemma lor_zero (a b : Z) : (Z.lor a b =? 0) = (a =? 0) && (b =? 0).
Proof.
  destruct (Z.eqb_spec (Z.lor a b) 0) as [H|H].
  - apply Z.lor_eq_0_iff in H as [-> ->]. reflexivity.
  - destruct (Z.eqb_spec a 0) as [->|]; [|reflexivity].
    destruct (Z.eqb_spec b 0) as [->|]; [|reflexivity].
    exfalso. apply H. reflexivity.
Qed.

Lemma to_uint_testbit (x n : Z) :
  0 <= n < 32 -> Z.testbit (to_uint x) n = Z.testbit x n.
Proof. intros Hn. unfold to_uint. apply Z.mod_pow2_bits_low. lia. Qed.

Lemma to_int_small (x : Z) : - 2 ^ 31 <= x < 2 ^ 31 -> to_int x = x.
Proof.
  intros Hx. unfold to_int.
  destruct (Z_lt_le_dec x 0).
  - replace (x mod 2 ^ 32) with (x + 2 ^ 32).
    + destruct (Z.ltb_spec (x + 2 ^ 32) (2 ^ 31)); lia.
    + apply Z.mod_unique with (q := -1); lia.
  - rewrite Z.mod_small by lia.
    destruct (Z.ltb_spec x (2 ^ 31)); lia.
Qed.

(** On a core number the two conversions of the callback change
    nothing. *)
Lemma core_number_conversions (c : Z) :
  0 <= c < 2 ^ 31 -> to_int (to_uint c) = c.
Proof.
  intros Hc. unfold to_uint. rewrite Z.mod_small by lia.
  apply to_int_small. lia.
Qed.

(** ** The capability prober *)

Section Prober.
Context {hdr : Headers} {plat : Platform}.

Lemma check_capability_flags_result (s : kstate) :
  result (check_capability_flags s)
  = if reports_sampling capability_word then 0 else - EINVAL.
Proof.
  unfold check_capability_flags, reports_sampling.
  rewrite land_one_zero.
  destruct (Z.testbit capability_word 0); [|reflexivity].
  msimpl. rewrite !lor_zero, !land_bit_zero by lia.
  destruct (Z.testbit capability_word 1), (Z.testbit capability_word 2),
    (Z.testbit capability_word 3), (Z.testbit capability_word 4);
    reflexivity.
Qed.

Lemma check_capability_flags_calls (s : kstate) :
  calls (check_capability_flags s) = [].
Proof.
  unfold check_capability_flags.
  destruct (Z.land capability_word 1 =? 0); [reflexivity|].
  msimpl.
  destruct ((Z.land capability_word (Z.shiftl 1 1) =? 0) && _);
    reflexivity.
Qed.

(** The capability stage writes capability flags and nothing else. *)
Lemma check_capability_flags_frame (s : kstate) :
  exists c, final (check_capability_flags s) = set_caps c s.
Proof.
  unfold check_capability_flags.
  destruct (Z.land capability_word 1 =? 0).
  - exists (caps s). destruct s; reflexivity.
  - msimpl.
    destruct ((Z.land capability_word (Z.shiftl 1 1) =? 0) && _);
      eexists; reflexivity.
Qed.

(** What the capability stage leaves in the two sampling flags once the
    flags-valid bit is set. *)
Lemma check_capability_flags_sampling (s : kstate) :
  Z.testbit capability_word 0 = true ->
  let c := caps (final (check_capability_flags s)) in
  ibs_fetch_supported c = Z.land capability_word (Z.shiftl 1 1)
  /\ ibs_op_supported c
     = Z.lor (Z.lor (Z.land capability_word (Z.shiftl 1 2))
                    (Z.land capability_word (Z.shiftl 1 3)))
             (Z.land capability_word (Z.shiftl 1 4)).
Proof.
  intros Hv. unfold check_capability_flags.
  rewrite land_one_zero, Hv. msimpl.
  destruct ((Z.land capability_word (Z.shiftl 1 1) =? 0) && _);
    split; reflexivity.
Qed.

Lemma start_workaround_loop (cpus : list Z) (s : kstate) :
  for_each cpus start_fam17h_m01h_static_workaround s
  = (tt,
     set_workaround_active (workaround_active s ∪ list_to_set cpus) s,
     map EvStartWorkaround cpus).
Proof.
  revert s. induction cpus as [|c cpus IH]; intros s.
  - cbn [for_each list_to_set map]. unfold ret.
    rewrite (right_id_L ∅ (∪)). destruct s; reflexivity.
  - cbn [for_each list_to_set map]. unfold bind at 1. rewrite IH.
    unfold start_fam17h_m01h_static_workaround. msimpl.
    rewrite (assoc_L (∪)). reflexivity.
Qed.

(** The prober, stage by stage. *)
Lemma check_for_ibs_support_unfold (s : kstate) :
  check_for_ibs_support s =
  if negb (x86_vendor =? X86_VENDOR_AMD) then (- EINVAL, s, [])
  else if (x86 <? 0x10) || (x86 =? 0x11) then (- EINVAL, s, [])
  else
    let w1 := family_workarounds (workarounds s) in
    let s1 := set_workarounds w1 s in
    if (Z.land feature_word (Z.shiftl 1 10) =? 0)
       && (workaround_fam17h_m01h w1 =? 0)
    then
      if (x86 =? 0x17) && (x86_model =? 0x1) then
        let s2 :=
          set_workaround_active
            (workaround_active s ∪ list_to_set online_cpus)
            (set_workarounds (set_workaround_fam17h_m01h 1 w1) s) in
        (result (check_capability_flags s2),
         final (check_capability_flags s2),
         map EvStartWorkaround online_cpus
           ++ calls (check_capability_flags s2))
      else (- EINVAL, s1, [])
    else check_capability_flags s1.
Proof.
  destruct s as [c w mj cl po pf h sm wa].
  unfold check_for_ibs_support, family_workarounds.
  destruct (negb (x86_vendor =? X86_VENDOR_AMD)); [reflexivity|].
  destruct ((x86 <? 16) || (x86 =? 17)); [reflexivity|].
  destruct (x86 =? 16), ((x86 =? 21) && (x86_model <=? 31)); mexec.
  all: match goal with
       | |- context [ if ?b then _ else check_capability_flags ] =>
           destruct b
       end; mexec.
  all: try (etransitivity; [|symmetry; apply run_eta]; reflexivity).
  all: destruct ((x86 =? 23) && (x86_model =? 1)); mexec;
    [|reflexivity].
  all: rewrite start_workaround_loop; reflexivity.
Qed.
Lemma check_for_ibs_support_calls (s : kstate) :
  calls (check_for_ibs_support s) = []
  \/ calls (check_for_ibs_support s) = map EvStartWorkaround online_cpus.
Proof.
  rewrite check_for_ibs_support_unfold. case_ifs;
    cbn [calls snd]; rewrite ?check_capability_flags_calls, ?app_nil_r;
    auto.
Qed.

(** The prober touches the capability flags, the workaround flags and the
    set of cores the workaround runs on; never the device storage, the
    handles or the sampling hardware. *)
Lemma check_for_ibs_support_frame (s : kstate) :
  let s' := final (check_for_ibs_support s) in
  pcpu_op_dev s' = pcpu_op_dev s /\ pcpu_fetch_dev s' = pcpu_fetch_dev s
  /\ handles s' = handles s /\ sampling s' = sampling s
  /\ ibs_major s' = ibs_major s /\ ibs_class s' = ibs_class s.
Proof.
  rewrite check_for_ibs_support_unfold. case_ifs;
    cbn [final fst snd];
    try match goal with
        | |- context [ check_capability_flags ?s1 ] =>
            destruct (check_capability_flags_frame s1) as [c' ->]
        end;
    repeat split; reflexivity.
Qed.

Lemma check_for_ibs_support_result (s : kstate) :
  result (check_for_ibs_support s) = - EINVAL
  \/ result (check_for_ibs_support s) = 0
     /\ reports_sampling capability_word = true.
Proof.
  rewrite check_for_ibs_support_unfold. case_ifs;
    cbn [result fst]; rewrite ?check_capability_flags_result;
    destruct (reports_sampling capability_word); auto.
Qed.

(** On success the two sampling flags hold what the capability stage
    computed from the capability word. *)
Lemma check_for_ibs_support_sampling (s : kstate) :
  result (check_for_ibs_support s) = 0 ->
  let c := caps (final (check_for_ibs_support s)) in
  ibs_fetch_supported c = Z.land capability_word (Z.shiftl 1 1)
  /\ ibs_op_supported c
     = Z.lor (Z.lor (Z.land capability_word (Z.shiftl 1 2))
                    (Z.land capability_word (Z.shiftl 1 3)))
             (Z.land capability_word (Z.shiftl 1 4)).
Proof.
  intros H0.
  assert (Hv : Z.testbit capability_word 0 = true).
  { destruct (check_for_ibs_support_result s) as [E|[_ E]].
    - rewrite E in H0. discriminate.
    - unfold reports_sampling in E. apply andb_true_iff in E. tauto. }
  revert H0. rewrite check_for_ibs_support_unfold. case_ifs;
    cbn [result final fst snd]; try discriminate; intros _;
    apply check_capability_flags_sampling; exact Hv.
Qed.

Lemma family_workarounds_fam17h (w : workaround_flags) :
  workaround_fam17h_m01h (family_workarounds w) = workaround_fam17h_m01h w.
Proof. unfold family_workarounds. case_ifs; reflexivity. Qed.

Lemma feature_bit_clear :
  Z.testbit (cpuid_ecx 0x80000001) 10 = false ->
  (Z.land feature_word (Z.shiftl 1 10) =? 0) = true.
Proof.
  intros Hb. rewrite land_bit_zero by lia. unfold feature_word.
  rewrite to_uint_testbit, Hb by lia. reflexivity.
Qed.

(** C7: with bit 10 of CPUID_Fn8000_0001 ECX clear and the Family 17h flag
    still zero, the prober on an AMD Family 17h Model 01h part sets the
    flag, starts the static workaround on every online core, in order, and
    goes on to the capability word, which alone decides its result; on any
    other processor it returns -EINVAL without having called anything and
    leaves the flag at zero. *)
Theorem fam17h_m01h_replaces_feature_bit (s : kstate) :
  Z.testbit (cpuid_ecx 0x80000001) 10 = false ->
  workaround_fam17h_m01h (workarounds s) = 0 ->
  let r := check_for_ibs_support s in
  (x86_vendor = X86_VENDOR_AMD -> x86 = 0x17 -> x86_model = 0x1 ->
   workaround_fam17h_m01h (workarounds (final r)) = 1
   /\ calls r = map EvStartWorkaround online_cpus
   /\ (forall c, c ∈ online_cpus -> c ∈ workaround_active (final r))
   /\ result r = if reports_sampling capability_word then 0 else - EINVAL)
  /\ (~ (x86 = 0x17 /\ x86_model = 0x1) ->
      result r = - EINVAL /\ calls r = []
      /\ workaround_fam17h_m01h (workarounds (final r)) = 0).
Proof.
  intros Hbit Hflag r. subst r. rewrite check_for_ibs_support_unfold.
  cbv zeta. rewrite family_workarounds_fam17h, Hflag, feature_bit_clear by
    exact Hbit.
  cbn [andb Z.eqb]. split.
  - intros Hv Hf Hm. rewrite Hv, Hf, Hm. cbn [Z.eqb Z.ltb negb orb andb
      Pos.eqb X86_VENDOR_AMD Z.compare Pos.compare Pos.compare_cont].
    cbn [result final calls fst snd].
    rewrite check_capability_flags_result, check_capability_flags_calls,
      app_nil_r.
    match goal with
    | |- context [ check_capability_flags ?s2 ] =>
        destruct (check_capability_flags_frame s2) as [c' ->]
    end.
    repeat split. intros c Hc. cbn. set_solver.
  - intros Hn.
    destruct (negb (x86_vendor =? X86_VENDOR_AMD)).
    { cbn. auto. }
    destruct ((x86 <? 16) || (x86 =? 17)).
    { cbn. auto. }
    replace ((x86 =? 23) && (x86_model =? 1)) with false.
    + cbn [result final calls fst snd workarounds set_workarounds].
      rewrite family_workarounds_fam17h. auto.
    + symmetry. apply andb_false_iff.
      destruct (Z.eqb_spec x86 23); [|auto].
      destruct (Z.eqb_spec x86_model 1); [|auto]. tauto.
Qed.

(** C9: when the prober succeeds, the op-sampling flag it leaves is
    nonzero exactly when bit 2, bit 3 or bit 4 of CPUID_Fn8000_001B EAX is
    set: the three op feature bits are or-ed into the one flag. *)
Theorem op_supported_iff_any_op_bit (s : kstate) :
  result (check_for_ibs_support s) = 0 ->
  ibs_op_supported (caps (final (check_for_ibs_support s))) <> 0
  <-> Z.testbit (cpuid_eax 0x8000001B) 2 = true
      \/ Z.testbit (cpuid_eax 0x8000001B) 3 = true
      \/ Z.testbit (cpuid_eax 0x8000001B) 4 = true.
Proof.
  intros H0.
  destruct (check_for_ibs_support_sampling s H0) as [_ ->].
  rewrite <- Z.eqb_neq, !lor_zero, !land_bit_zero by lia.
  unfold capability_word. rewrite !to_uint_testbit by lia.
  destruct (Z.testbit (cpuid_eax 0x8000001B) 2),
    (Z.testbit (cpuid_eax 0x8000001B) 3),
    (Z.testbit (cpuid_eax 0x8000001B) 4); cbn; intuition congruence.
Qed.

End Prober.

(** ** Device initialisation *)

Section Devices.
Context {hdr : Headers} {plat : Platform}.

(** What a device pointer designates once init_ibs_op_dev has been called
    on it. *)
Lemma init_ibs_op_dev_at_load (p : dev_ptr) (c : Z) (s : kstate)
    (m : Z -> ibs_dev) :
  area_of (fst p) s = Some m ->
  load_dev p (final (init_ibs_op_dev_at p c s))
  = init_ibs_op_dev s (m (snd p)) c.
Proof.
  intros Hm. unfold init_ibs_op_dev_at, update_dev, load_dev. msimpl.
  rewrite Hm. destruct p as [[] c']; cbn [fst snd area_of set_area] in *;
    msimpl; destruct (Z.eq_dec c' c'); congruence.
Qed.

(** C8: whatever a device held before, after init_ibs_op_dev or
    init_ibs_fetch_dev for core [c] it records [c] and its flavor, its
    entry size is the size of its flavor's sample record, its in-use flag
    is 0 and its capability and workaround flags are copies of the
    driver's; the two flavors get different entry sizes as the two record
    types have different sizes. *)
Theorem init_ibs_dev_records (g : kstate) (d : ibs_dev) (c : Z) :
  sizeof_ibs_op <> sizeof_ibs_fetch ->
  let op := init_ibs_op_dev g d c in
  let fetch := init_ibs_fetch_dev g d c in
  (cpu op = c /\ flavor op = IBS_OP /\ entry_size op = sizeof_ibs_op
   /\ in_use op = 0
   /\ dev_caps op = caps g /\ dev_workarounds op = workarounds g)
  /\ (cpu fetch = c /\ flavor fetch = IBS_FETCH
      /\ entry_size fetch = sizeof_ibs_fetch /\ in_use fetch = 0
      /\ dev_caps fetch = caps g /\ dev_workarounds fetch = workarounds g)
  /\ entry_size op <> entry_size fetch.
Proof.
  intros Hsz op fetch. subst op fetch.
  unfold init_ibs_op_dev, init_ibs_fetch_dev, set_flavor_entry_size,
    init_ibs_dev.
  cbn [cpu flavor entry_size in_use dev_caps dev_workarounds].
  destruct (caps g), (workarounds g). cbn. repeat split; assumption.
Qed.

End Devices.

(** ** Module load *)

Section Load.
Context {hdr : Headers} {plat : Platform}.

Lemma bind_unfold {A B} (m : M A) (k : A -> M B) (s : kstate) :
  bind m k s
  = (result (k (result (m s)) (final (m s))),
     final (k (result (m s)) (final (m s))),
     calls (m s) ++ calls (k (result (m s)) (final (m s)))).
Proof. reflexivity. Qed.

(** A failing prober is all that ibs_init runs. *)
Lemma ibs_init_prober_fails (s : kstate) :
  result (check_for_ibs_support s) < 0 ->
  ibs_init s = check_for_ibs_support s.
Proof.
  intros Hneg. unfold ibs_init. rewrite bind_unfold.
  destruct (Z.ltb_spec (result (check_for_ibs_support s)) 0); [|lia].
  cbn [ret result final calls fst snd]. rewrite app_nil_r.
  symmetry. apply run_eta.
Qed.

(** C1: when the capability word has its flags-valid bit clear, or has
    neither the fetch bit nor any op bit, ibs_init returns -EINVAL, the
    error of the capability check; it has asked for no per-core storage
    (its only calls, if any, start the Family 17h workaround) and both
    per-core pointers are as before. *)
Theorem no_sampling_support_fails_load (s : kstate) :
  Z.testbit capability_word 0 = false
  \/ (Z.testbit capability_word 1 = false
      /\ Z.testbit capability_word 2 = false
      /\ Z.testbit capability_word 3 = false
      /\ Z.testbit capability_word 4 = false) ->
  let r := ibs_init s in
  result r = - EINVAL
  /\ result r = result (check_for_ibs_support s)
  /\ (forall a, EvAllocPercpu a ∉ calls r)
  /\ (forall e, e ∈ calls r -> exists c, e = EvStartWorkaround c)
  /\ pcpu_op_dev (final r) = pcpu_op_dev s
  /\ pcpu_fetch_dev (final r) = pcpu_fetch_dev s.
Proof.
  intros Hno r. subst r.
  assert (Hrep : reports_sampling capability_word = false).
  { unfold reports_sampling.
    destruct Hno as [->|(-> & -> & -> & ->)];
      [reflexivity | apply andb_false_r]. }
  assert (Hres : result (check_for_ibs_support s) = - EINVAL).
  { destruct (check_for_ibs_support_result s) as [E|[_ E]]; [exact E|].
    congruence. }
  rewrite ibs_init_prober_fails by (rewrite Hres; reflexivity).
  assert (Hcalls : forall e, e ∈ calls (check_for_ibs_support s) ->
                             exists c, e = EvStartWorkaround c).
  { intros e He.
    destruct (check_for_ibs_support_calls s) as [E|E]; rewrite E in He.
    - inversion He.
    - apply list_elem_of_fmap in He as (c & -> & _). eauto. }
  destruct (check_for_ibs_support_frame s) as (Hop & Hfetch & _).
  repeat split; try assumption.
  intros a Ha. apply Hcalls in Ha as [c Hc]. discriminate.
Qed.

End Load.

(** ** Error pointers and notifier results *)

Lemma PTR_ERR_range (p : Z) :
  IS_ERR p = true -> - MAX_ERRNO <= to_int (PTR_ERR p) <= -1.
Proof.
  unfold IS_ERR, PTR_ERR, to_long, MAX_ERRNO. intros H.
  apply Z.leb_le in H.
  assert (Hm : 0 <= p mod 2 ^ 64 < 2 ^ 64) by (apply Z.mod_pos_bound; lia).
  destruct (Z.ltb_spec (p mod 2 ^ 64) (2 ^ 63)); [lia|].
  rewrite to_int_small; lia.
Qed.

Lemma stop_mask_disjoint (x : Z) :
  0 <= x < 2 ^ 15 -> Z.land NOTIFY_STOP_MASK x = 0.
Proof.
  intros Hx. apply Z.bits_inj'. intros n Hn.
  change NOTIFY_STOP_MASK with (2 ^ 15).
  rewrite Z.land_spec, Z.bits_0, Z.pow2_bits_eqb by lia.
  destruct (Z.eqb_spec 15 n) as [<-|]; [|reflexivity].
  rewrite <- (Z.mod_small x (2 ^ 15)) by lia.
  rewrite Z.mod_pow2_bits_high by lia. reflexivity.
Qed.

Lemma notifier_from_errno_fails (err : Z) :
  - MAX_ERRNO <= err <= -1 -> notifier_fails (notifier_from_errno err) err.
Proof.
  unfold MAX_ERRNO. intros He.
  assert (Hd : Z.land NOTIFY_STOP_MASK (NOTIFY_OK - err) = 0)
    by (apply stop_mask_disjoint; unfold NOTIFY_OK; lia).
  assert (Hsum : Z.lor NOTIFY_STOP_MASK (NOTIFY_OK - err)
                 = NOTIFY_STOP_MASK + (NOTIFY_OK - err)).
  { rewrite <- Z.lxor_lor by exact Hd. symmetry.
    apply Z.add_nocarry_lxor. exact Hd. }
  unfold notifier_from_errno.
  destruct (Z.eqb_spec err 0); [lia|].
  rewrite to_int_small
    by (rewrite Hsum; unfold NOTIFY_STOP_MASK, NOTIFY_OK; lia).
  assert (Hlow : Z.land (Z.lor NOTIFY_STOP_MASK (NOTIFY_OK - err))
                        (Z.lnot NOTIFY_STOP_MASK) = NOTIFY_OK - err).
  { rewrite Z.land_lor_distr_l.
    replace (Z.land NOTIFY_STOP_MASK (Z.lnot NOTIFY_STOP_MASK)) with 0
      by reflexivity.
    rewrite Z.lor_0_l.
    apply Z.bits_inj'. intros i Hi.
    rewrite Z.land_spec, Z.lnot_spec by lia.
    assert (Hb : Z.testbit (Z.land NOTIFY_STOP_MASK (NOTIFY_OK - err)) i
                 = false) by (rewrite Hd; apply Z.bits_0).
    rewrite Z.land_spec in Hb.
    destruct (Z.testbit NOTIFY_STOP_MASK i),
      (Z.testbit (NOTIFY_OK - err) i); cbn in *; congruence. }
  repeat split.
  - rewrite Z.land_comm, Z.land_lor_distr_r, Hd, Z.lor_0_r. reflexivity.
  - unfold notifier_to_errno. rewrite Hlow.
    destruct (Z.gtb_spec (NOTIFY_OK - err) NOTIFY_OK); lia.
  - lia.
Qed.

(** ** The hot-plug callback *)

Section Hotplug.
Context {hdr : Headers} {plat : Platform}.

Lemma ibs_device_create_run (fl c : Z) (s : kstate) :
  ibs_device_create fl c s
  = if IS_ERR (device_create_ret fl c)
    then (to_int (PTR_ERR (device_create_ret fl c)), s,
          [EvDeviceCreate fl c])
    else (0, set_handles (handles s ∪ {[ (fl, c) ]}) s,
          [EvDeviceCreate fl c]).
Proof.
  unfold ibs_device_create, device_create.
  destruct (IS_ERR (device_create_ret fl c)) eqn:E; mexec; rewrite E;
    reflexivity.
Qed.

Lemma ibs_device_destroy_run (fl c : Z) (s : kstate) :
  ibs_device_destroy fl c s
  = (tt, set_handles (handles s ∖ {[ (fl, c) ]}) s, [EvDeviceDestroy fl c]).
Proof. reflexivity. Qed.

(** The callback on CPU_UP_PREPARE, outcome by outcome. *)
Lemma callback_up_prepare (hcpu : Z) (s : kstate) :
  let c := to_int (to_uint hcpu) in
  let op := device_create_ret IBS_OP c in
  let fetch := device_create_ret IBS_FETCH c in
  ibs_class_cpu_callback CPU_UP_PREPARE hcpu s
  = if IS_ERR op then
      (notifier_from_errno (to_int (PTR_ERR op)), s, [EvDeviceCreate IBS_OP c])
    else if IS_ERR fetch then
      (notifier_from_errno (to_int (PTR_ERR fetch)),
       set_handles ((handles s ∪ {[ (IBS_OP, c) ]}) ∖ {[ (IBS_OP, c) ]}) s,
       [EvDeviceCreate IBS_OP c; EvDeviceCreate IBS_FETCH c;
        EvDeviceDestroy IBS_OP c])
    else
      (NOTIFY_OK,
       set_handles (handles s ∪ {[ (IBS_OP, c) ]} ∪ {[ (IBS_FETCH, c) ]}) s,
       [EvDeviceCreate IBS_OP c; EvDeviceCreate IBS_FETCH c]).
Proof.
  intros c op fetch. unfold ibs_class_cpu_callback.
  change (CPU_UP_PREPARE =? CPU_UP_PREPARE) with true. cbv iota.
  fold c. rewrite bind_unfold, bind_unfold, ibs_device_create_run. fold op.
  destruct (IS_ERR op) eqn:Eop.
  - pose proof (PTR_ERR_range op Eop) as Hr. cbn [result final calls fst snd].
    destruct (Z.eqb_spec (to_int (PTR_ERR op)) 0); [lia|].
    reflexivity.
  - cbn [result final calls fst snd Z.eqb negb].
    rewrite bind_unfold, ibs_device_create_run. fold fetch.
    destruct (IS_ERR fetch) eqn:Ef.
    + pose proof (PTR_ERR_range fetch Ef) as Hr.
      cbn [result final calls fst snd].
      destruct (Z.eqb_spec (to_int (PTR_ERR fetch)) 0); [lia|].
      reflexivity.
    + reflexivity.
Qed.

(** The callback on the three actions that end a core's devices. *)
Lemma callback_removed (action hcpu : Z) (s : kstate) :
  action = CPU_UP_CANCELED \/ action = CPU_UP_CANCELED_FROZEN
  \/ action = CPU_DEAD ->
  let c := to_int (to_uint hcpu) in
  ibs_class_cpu_callback action hcpu s
  = (NOTIFY_OK,
     set_handles (handles s ∖ {[ (IBS_OP, c) ]} ∖ {[ (IBS_FETCH, c) ]}) s,
     [EvDeviceDestroy IBS_OP c; EvDeviceDestroy IBS_FETCH c]).
Proof.
  intros [-> | [-> | ->]] c; reflexivity.
Qed.

(** The callback on CPU_DOWN_PREPARE. *)
Lemma callback_down_prepare (hcpu : Z) (s : kstate) :
  let c := to_uint hcpu in
  let s1 :=
    set_sampling (sampling s ∖ {[ (IBS_OP, c) ]} ∖ {[ (IBS_FETCH, c) ]}) s in
  ibs_class_cpu_callback CPU_DOWN_PREPARE hcpu s
  = if workaround_fam17h_m01h (workarounds s) =? 0
    then (NOTIFY_OK, s1,
          [EvDisableOp (per_cpu_ptr OpArea c) c;
           EvDisableFetch (per_cpu_ptr FetchArea c) c])
    else (NOTIFY_OK,
          set_workaround_active (workaround_active s ∖ {[ c ]}) s1,
          [EvDisableOp (per_cpu_ptr OpArea c) c;
           EvDisableFetch (per_cpu_ptr FetchArea c) c;
           EvStopWorkaround c]).
Proof.
  intros c s1. subst s1. unfold ibs_class_cpu_callback. fold c.
  change (CPU_DOWN_PREPARE =? CPU_UP_PREPARE) with false.
  change (CPU_DOWN_PREPARE =? CPU_ONLINE) with false.
  change ((CPU_DOWN_PREPARE =? CPU_UP_CANCELED)
          || (CPU_DOWN_PREPARE =? CPU_UP_CANCELED_FROZEN)
          || (CPU_DOWN_PREPARE =? CPU_DEAD)) with false.
  change (CPU_DOWN_PREPARE =? CPU_DOWN_PREPARE) with true. cbv iota.
  unfold disable_ibs_op_on_cpu, disable_ibs_fetch_on_cpu,
    stop_fam17h_m01h_static_workaround.
  mexec.
  destruct (workaround_fam17h_m01h (workarounds s) =? 0); reflexivity.
Qed.

(** C3: on CPU_UP_PREPARE, when creating the op handle fails the callback
    has made that one call and no handle has been added; when the op
    handle is created and creating the fetch handle fails, the callback
    destroys the op handle again, so that the core has no op handle and no
    handle exists that did not exist before.  Either way the result has
    the stop bit and carries the negative errno of the failed creation,
    which fails the whole transition. *)
Theorem prepare_failure_rolls_back (hcpu : Z) (s : kstate) :
  let c := to_int (to_uint hcpu) in
  let op := device_create_ret IBS_OP c in
  let fetch := device_create_ret IBS_FETCH c in
  let r := ibs_class_cpu_callback CPU_UP_PREPARE hcpu s in
  (IS_ERR op = true ->
   calls r = [EvDeviceCreate IBS_OP c]
   /\ handles (final r) = handles s
   /\ notifier_fails (result r) (to_int (PTR_ERR op)))
  /\ (IS_ERR op = false -> IS_ERR fetch = true ->
      calls r = [EvDeviceCreate IBS_OP c; EvDeviceCreate IBS_FETCH c;
                 EvDeviceDestroy IBS_OP c]
      /\ ((IBS_OP, c) ∉ handles (final r))
      /\ (handles (final r) ⊆ handles s)
      /\ notifier_fails (result r) (to_int (PTR_ERR fetch))).
Proof.
  intros c op fetch r. subst r. rewrite callback_up_prepare.
  fold c. fold op. fold fetch. split.
  - intros Eop. rewrite Eop. cbn [result final calls fst snd].
    repeat split.
    all: apply notifier_from_errno_fails, PTR_ERR_range, Eop.
  - intros Eop Ef. rewrite Eop, Ef.
    cbn [result final calls fst snd handles set_handles].
    split; [reflexivity|]. split; [sets|]. split; [sets|].
    apply notifier_from_errno_fails, PTR_ERR_range, Ef.
Qed.

(** C5: on CPU_DOWN_PREPARE, in any state of the driver and of its
    devices (the in-use flags are not read), the callback calls the op
    and the fetch disable routine for the core, after which sampling is
    off for both flavors there, and it stops the Family 17h workaround on
    the core exactly when the workaround flag is nonzero. *)
Theorem down_prepare_disables_both (hcpu : Z) (s : kstate) :
  let c := to_uint hcpu in
  let r := ibs_class_cpu_callback CPU_DOWN_PREPARE hcpu s in
  calls r
  = [EvDisableOp (per_cpu_ptr OpArea c) c;
     EvDisableFetch (per_cpu_ptr FetchArea c) c]
    ++ (if workaround_fam17h_m01h (workarounds s) =? 0 then []
        else [EvStopWorkaround c])
  /\ ((IBS_OP, c) ∉ sampling (final r))
  /\ ((IBS_FETCH, c) ∉ sampling (final r))
  /\ ((EvStopWorkaround c ∈ calls r)
      <-> workaround_fam17h_m01h (workarounds s) <> 0)
  /\ (workaround_fam17h_m01h (workarounds s) <> 0 ->
      (c ∉ workaround_active (final r)))
  /\ (workaround_fam17h_m01h (workarounds s) = 0 ->
      workaround_active (final r) = workaround_active s)
  /\ pcpu_op_dev (final r) = pcpu_op_dev s
  /\ pcpu_fetch_dev (final r) = pcpu_fetch_dev s
  /\ result r = NOTIFY_OK.
Proof.
  intros c r. subst r. rewrite callback_down_prepare. fold c.
  destruct (Z.eqb_spec (workaround_fam17h_m01h (workarounds s)) 0) as [E|E];
    cbn [result final calls fst snd app sampling set_sampling
         workaround_active set_workaround_active pcpu_op_dev
         pcpu_fetch_dev].
  - split; [reflexivity|]. split; [sets|]. split; [sets|].
    split.
    { split; [|contradiction]. intros H.
      repeat (apply elem_of_cons in H as [H|H]; [discriminate|]).
      inversion H. }
    repeat split. contradiction.
  - split; [reflexivity|]. split; [sets|]. split; [sets|].
    split.
    { split; [intros _; exact E|]. intros _. sets. }
    split; [intros _; sets|]. repeat split. contradiction.
Qed.

(** C6: on CPU_UP_CANCELED, CPU_UP_CANCELED_FROZEN and CPU_DEAD the
    callback destroys the op handle and the fetch handle of the core:
    neither exists afterwards, and every other handle is kept. *)
Theorem cancel_or_dead_destroys_both (action hcpu : Z) (s : kstate) :
  action = CPU_UP_CANCELED \/ action = CPU_UP_CANCELED_FROZEN
  \/ action = CPU_DEAD ->
  let c := to_int (to_uint hcpu) in
  let r := ibs_class_cpu_callback action hcpu s in
  calls r = [EvDeviceDestroy IBS_OP c; EvDeviceDestroy IBS_FETCH c]
  /\ ((IBS_OP, c) ∉ handles (final r))
  /\ ((IBS_FETCH, c) ∉ handles (final r))
  /\ (forall h, h <> (IBS_OP, c) -> h <> (IBS_FETCH, c) ->
      ((h ∈ handles (final r)) <-> (h ∈ handles s)))
  /\ result r = NOTIFY_OK.
Proof.
  intros Ha c r. subst r. rewrite (callback_removed action hcpu s Ha).
  fold c. cbn [result final calls fst snd handles set_handles].
  repeat split; sets.
Qed.

End Hotplug.

(** ** Where handles are created *)

Section Handles.
Context {hdr : Headers} {plat : Platform}.

Lemma respects_ret {A} (a : A) s : respects (ret a) s.
Proof. split; [reflexivity | constructor]. Qed.

Lemma respects_emit e s :
  creates_supported (caps s) e -> respects (emit e) s.
Proof.
  intros H. split; [reflexivity|].
  cbn [calls snd emit]. constructor; [exact H | constructor].
Qed.

Lemma respects_modify f s : caps (f s) = caps s -> respects (modify f) s.
Proof. intros H. split; [exact H | constructor]. Qed.

Lemma respects_bind {A B} (m : M A) (k : A -> M B) s :
  respects m s -> (forall a s', respects (k a) s') -> respects (bind m k) s.
Proof.
  intros [Hc Hl] Hk.
  destruct (Hk (result (m s)) (final (m s))) as [Hc' Hl'].
  rewrite Hc in Hl'. split.
  - rewrite final_bind, Hc'. exact Hc.
  - rewrite calls_bind. apply Forall_app. split; assumption.
Qed.

Lemma respects_bind_get {B} (k : kstate -> M B) s :
  respects (k s) s -> respects (bind get k) s.
Proof. intros H. exact H. Qed.

Lemma respects_for_each cpus (body : Z -> M unit) :
  (forall c s, respects (body c) s) ->
  forall s, respects (for_each cpus body) s.
Proof.
  intros Hb. induction cpus as [|c cpus IH]; intros s; cbn [for_each].
  - apply respects_ret.
  - apply respects_bind; [apply Hb | intros _; apply IH].
Qed.

Lemma respects_update_dev p f s : respects (update_dev p f) s.
Proof.
  apply respects_modify. destruct p as [[] c]; cbn [fst snd area_of];
    [destruct (pcpu_op_dev s) | destruct (pcpu_fetch_dev s)]; reflexivity.
Qed.

Lemma respects_device_create fl c s :
  creates_supported (caps s) (EvDeviceCreate fl c) ->
  respects (ibs_device_create fl c) s.
Proof.
  intros H. unfold respects. rewrite ibs_device_create_run.
  destruct (IS_ERR (device_create_ret fl c));
    (split; [reflexivity | cbn [calls snd]; constructor;
                           [exact H | constructor]]).
Qed.

(** The structural steps, tried in turn. *)
Ltac respects_step :=
  first
    [ apply respects_ret
    | apply respects_bind_get; cbv beta
    | apply respects_bind; [| intros ? ?]
    | apply respects_emit; exact I
    | apply respects_modify; reflexivity
    | apply respects_update_dev
    | apply respects_for_each; intros ? ?
    | match goal with
      | |- respects (if ?b then _ else _) _ => destruct b eqn:?
      | |- respects (match ?f with Next _ => _ | Jump _ => _ end) _ =>
          destruct f
      end ].

Lemma respects_out_buffers err s : respects (out_buffers err) s.
Proof.
  unfold out_buffers, free_ibs_buffer, free_percpu.
  repeat respects_step.
  all: destruct s'; reflexivity.
Qed.

Lemma respects_out_chrdev err s : respects (out_chrdev err) s.
Proof.
  unfold out_chrdev, unregister_chrdev.
  repeat respects_step; try apply respects_out_buffers.
Qed.

Lemma respects_out_class err s : respects (out_class err) s.
Proof.
  unfold out_class, ibs_device_destroy, device_destroy, class_destroy.
  repeat respects_step; try apply respects_out_chrdev.
Qed.

Lemma respects_out_device err s : respects (out_device err) s.
Proof.
  unfold out_device. repeat respects_step; try apply respects_out_class.
Qed.

Lemma respects_setup_devices cpus err s :
  respects (setup_devices cpus err) s.
Proof.
  revert err s. induction cpus as [|c cpus IH]; intros err s;
    cbn [setup_devices].
  - apply respects_ret.
  - unfold init_ibs_op_dev_at, init_ibs_fetch_dev_at, setup_ibs_buffer,
      init_workaround_initialize.
    repeat respects_step; try apply IH.
Qed.

Lemma respects_create_devices cpus err s :
  respects (create_devices cpus err) s.
Proof.
  revert err s. induction cpus as [|c cpus IH]; intros err s;
    cbn [create_devices].
  - apply respects_ret.
  - apply respects_bind_get; cbv beta. apply respects_bind.
    { destruct (Z.eqb_spec (ibs_op_supported (caps s)) 0) as [E|E];
        cbn [negb]; [apply respects_ret|].
      apply respects_device_create. left. split; [reflexivity|exact E]. }
    intros err1 s1. destruct (negb (err1 =? 0)); [apply respects_ret|].
    apply respects_bind_get; cbv beta. apply respects_bind.
    { destruct (Z.eqb_spec (ibs_fetch_supported (caps s1)) 0) as [E|E];
        cbn [negb]; [apply respects_ret|].
      apply respects_device_create. right. split; [reflexivity|exact E]. }
    intros err2 s2. destruct (negb (err2 =? 0)); [apply respects_ret|].
    apply IH.
Qed.

(** Every call of ibs_init that creates a handle creates one of a flavor
    that the capability flags, as the prober left them, support. *)
Lemma ibs_init_creates_supported (s : kstate) :
  caps (final (ibs_init s)) = caps (final (check_for_ibs_support s))
  /\ Forall (creates_supported (caps (final (ibs_init s))))
       (calls (ibs_init s)).
Proof.
  unfold ibs_init.
  match goal with
  | |- context [ bind check_for_ibs_support ?k ] =>
      assert (Hk : forall a s', respects (k a) s'); [|set (K := k) in *]
  end.
  { intros a s'. cbv beta.
    unfold alloc_percpu, free_percpu, init_workaround_structs,
      register_chrdev, class_create, ibs_setup_lvt, register_nmi_handler.
    repeat respects_step;
      first [ apply respects_setup_devices | apply respects_create_devices
            | apply respects_out_buffers | apply respects_out_chrdev
            | apply respects_out_class | apply respects_out_device
            | idtac ].
    all: match goal with
         | |- caps (set_area ?a _ ?s) = _ => destruct a; reflexivity
         end. }
  destruct (Hk (result (check_for_ibs_support s))
               (final (check_for_ibs_support s))) as [Hc Hl].
  rewrite final_bind, calls_bind, Hc. split; [reflexivity|].
  apply Forall_app. split; [|exact Hl].
  apply Forall_forall. intros e He.
  destruct (check_for_ibs_support_calls s) as [E|E]; rewrite E in He.
  - inversion He.
  - apply list_elem_of_fmap in He as (c & -> & _). exact I.
Qed.

(** C10: ibs_init creates a core's op handle only if the op-sampling
    flag is nonzero and its fetch handle only if the fetch-sampling flag
    is nonzero.  The hot-plug callback does not consult the capability
    flags: on CPU_UP_PREPARE it always asks for the op handle first and,
    when that succeeds, for the fetch handle, and with both created both
    exist afterwards; on the removal actions it destroys both; replacing
    the capability flags by any others changes none of its calls. *)
Theorem handle_creation_asymmetric :
  (forall s fl c,
     EvDeviceCreate fl c ∈ calls (ibs_init s) ->
     (fl = IBS_OP /\ ibs_op_supported (caps (final (ibs_init s))) <> 0)
     \/ (fl = IBS_FETCH
         /\ ibs_fetch_supported (caps (final (ibs_init s))) <> 0))
  /\ (forall s hcpu cf,
       let c := to_int (to_uint hcpu) in
       let r := ibs_class_cpu_callback CPU_UP_PREPARE hcpu s in
       (exists rest, calls r = EvDeviceCreate IBS_OP c :: rest)
       /\ (IS_ERR (device_create_ret IBS_OP c) = false ->
           exists rest,
             calls r
             = EvDeviceCreate IBS_OP c :: EvDeviceCreate IBS_FETCH c :: rest)
       /\ (IS_ERR (device_create_ret IBS_OP c) = false ->
           IS_ERR (device_create_ret IBS_FETCH c) = false ->
           handles (final r)
           = handles s ∪ {[ (IBS_OP, c) ]} ∪ {[ (IBS_FETCH, c) ]})
       /\ calls (ibs_class_cpu_callback CPU_UP_PREPARE hcpu (set_caps cf s))
          = calls r)
  /\ (forall s action hcpu cf,
       action = CPU_UP_CANCELED \/ action = CPU_UP_CANCELED_FROZEN
       \/ action = CPU_DEAD ->
       let c := to_int (to_uint hcpu) in
       let r := ibs_class_cpu_callback action hcpu s in
       calls r = [EvDeviceDestroy IBS_OP c; EvDeviceDestroy IBS_FETCH c]
       /\ calls (ibs_class_cpu_callback action hcpu (set_caps cf s))
          = calls r).
Proof.
  split; [|split].
  - intros s fl c He.
    destruct (ibs_init_creates_supported s) as [_ Hl].
    rewrite Forall_forall in Hl. exact (Hl _ He).
  - intros s hcpu cf c r. subst r. rewrite !callback_up_prepare. fold c.
    destruct (IS_ERR (device_create_ret IBS_OP c));
      [|destruct (IS_ERR (device_create_ret IBS_FETCH c))];
      cbn [calls final snd fst handles set_handles set_caps];
      repeat split; eauto; discriminate.
  - intros s action hcpu cf Ha c r. subst r.
    rewrite !(callback_removed action hcpu _ Ha). split; reflexivity.
Qed.

End Handles.

(** ** Unwinding *)

Section Unwind.
Context {hdr : Headers} {plat : Platform}.

(** The calls of a loop whose body makes the same calls in every state. *)
Lemma for_each_calls (cpus : list Z) (body : Z -> M unit)
    (ev : Z -> list event) :
  (forall c s, calls (body c s) = ev c) ->
  forall s, calls (for_each cpus body s) = flat_map ev cpus.
Proof.
  intros Hb. induction cpus as [|c cpus IH]; intros s; cbn [for_each].
  - reflexivity.
  - rewrite calls_bind, Hb, IH. reflexivity.
Qed.

(** Label out_buffers: every possible core's two buffers are freed, then
    both per-core areas; [err] is handed back unchanged. *)
Lemma out_buffers_run (err : Z) (s : kstate) :
  let r := out_buffers err s in
  result r = err
  /\ pcpu_op_dev (final r) = None /\ pcpu_fetch_dev (final r) = None
  /\ calls r
     = flat_map free_buffers_calls possible_cpus
       ++ [EvFreePercpu FetchArea; EvFreePercpu OpArea].
Proof.
  unfold out_buffers, free_percpu. msimpl. repeat split.
  f_equal. apply for_each_calls. reflexivity.
Qed.

(** With every buffer allocation succeeding, the loop over the possible
    cores runs to its end and leaves [err] at zero. *)
Lemma setup_devices_ok (cpus : list Z) (s : kstate) :
  (forall d, setup_ibs_buffer_ret d = 0) ->
  result (setup_devices cpus 0 s) = Next 0.
Proof.
  intros Hok. revert s. induction cpus as [|c cpus IH]; intros s;
    cbn [setup_devices]; [reflexivity|].
  unfold setup_ibs_buffer. rewrite !Hok. msimpl. apply IH.
Qed.

(** C2, as the code has it: when the prober, both per-core allocations,
    the workaround storage and every ring buffer succeed and the
    character-device registration fails, ibs_init unwinds (it frees every
    possible core's two ring buffers and then both per-core areas, and
    nothing is left behind either pointer) but returns 0: [err] is not
    assigned on this path. *)
Theorem chrdev_failure_returns_zero (s : kstate) :
  result (check_for_ibs_support s) = 0 ->
  alloc_percpu_op_ok = true ->
  alloc_percpu_fetch_ok = true ->
  init_workaround_structs_ret = 0 ->
  (forall d, setup_ibs_buffer_ret d = 0) ->
  register_chrdev_ret < 0 ->
  let r := ibs_init s in
  result r = 0
  /\ pcpu_op_dev (final r) = None /\ pcpu_fetch_dev (final r) = None
  /\ exists before,
       calls r
       = before ++ [EvRegisterChrdev]
         ++ flat_map free_buffers_calls possible_cpus
         ++ [EvFreePercpu FetchArea; EvFreePercpu OpArea].
Proof.
  intros Hprobe Hop Hfetch Hws Hbuf Hchr r. subst r.
  unfold ibs_init, alloc_percpu, init_workaround_structs, register_chrdev.
  rewrite bind_unfold, Hprobe. cbn [Z.ltb Z.compare].
  rewrite Hop, Hfetch, Hws.
  repeat (rewrite bind_unfold; msimpl).
  change (negb (0 =? 0)) with false. cbv iota.
  rewrite bind_unfold, (setup_devices_ok _ _ Hbuf).
  repeat (rewrite bind_unfold; msimpl).
  destruct (Z.ltb_spec register_chrdev_ret 0); [|lia].
  match goal with
  | |- context [ out_buffers 0 ?s1 ] =>
      destruct (out_buffers_run 0 s1) as (Hr & Ho & Hf & Hc)
  end.
  cbv zeta in Hr, Ho, Hf, Hc. unfold result, final, calls in *.
  rewrite Hr, Ho, Hf, Hc.
  repeat split.
  match goal with
  | |- exists before, ?l1 ++ ?e1 :: ?e2 :: ?e3 :: ?l2 ++ _ = _ =>
      exists (l1 ++ e1 :: e2 :: e3 :: l2)
  end.
  rewrite <- app_assoc. reflexivity.
Qed.

End Unwind.

(** ** Module unload *)

Section Unload.
Context {hdr : Headers} {plat : Platform}.

Lemma for_each_calls_inv (I : kstate -> Prop) (cpus : list Z)
    (body : Z -> M unit) (ev : Z -> list event) :
  (forall c s, I s -> I (final (body c s)) /\ calls (body c s) = ev c) ->
  forall s, I s ->
    I (final (for_each cpus body s))
    /\ calls (for_each cpus body s) = flat_map ev cpus.
Proof.
  intros Hb. induction cpus as [|c cpus IH]; intros s Hs; cbn [for_each].
  - split; [exact Hs | reflexivity].
  - destruct (Hb c s Hs) as [H1 H2].
    destruct (IH _ H1) as [H3 H4].
    rewrite final_bind, calls_bind, H2. split; [exact H3|].
    rewrite H4. reflexivity.
Qed.

Lemma calls_update_dev p f s : calls (update_dev p f s) = [].
Proof. reflexivity. Qed.

Lemma update_dev_same_variables p f s s' :
  same_variables s s' -> same_variables s (final (update_dev p f s')).
Proof.
  intros H. unfold update_dev. msimpl.
  destruct p as [[] c]; cbn [fst snd area_of];
    [destruct (pcpu_op_dev s') | destruct (pcpu_fetch_dev s')]; exact H.
Qed.

(** C4, as the code has it: ibs_exit unregisters the NMI handler, then,
    inside the notifier-registration bracket, destroys the handles of the
    supported flavors of every online core, destroys the class,
    unregisters the character-device region and only then the hot-plug
    notifier; after the bracket it goes through the possible cores,
    freeing the fetch and the op buffer of each and, with the Family 17h
    flag set, stopping the workaround on it; last it frees the fetch
    area, the op area and the workaround engine's storage. *)
Theorem ibs_exit_order (s : kstate) :
  calls (ibs_exit s)
  = [EvUnregisterNmiHandler; EvNotifierRegisterBegin]
    ++ flat_map (destroy_calls (caps s)) online_cpus
    ++ [EvClassDestroy; EvUnregisterChrdev (ibs_major s);
        EvUnregisterHotcpuNotifier; EvNotifierRegisterDone]
    ++ flat_map (release_calls (workarounds s)) possible_cpus
    ++ [EvFreePercpu FetchArea; EvFreePercpu OpArea;
        EvFreeWorkaroundStructs].
Proof.
  unfold ibs_exit, class_destroy, unregister_chrdev, free_percpu,
    free_workaround_structs.
  msimpl.
  match goal with
  | |- context [ for_each online_cpus ?b ?s1 ] =>
      destruct (for_each_calls_inv (same_variables s) online_cpus b
                  (destroy_calls (caps s))) with (s := s1)
        as [(Hc1 & Hw1 & Hm1) Hl1]
  end.
  { intros c s' (Hc & Hw & Hm). unfold ibs_device_destroy, device_destroy.
    rewrite !bind_unfold. msimpl. unfold destroy_calls. rewrite <- Hc.
    destruct (ibs_op_supported (caps s') =? 0); msimpl;
      destruct (ibs_fetch_supported (caps s') =? 0); msimpl;
      (split; [repeat split; assumption | reflexivity]). }
  { repeat split. }
  unfold final, calls in *. rewrite Hl1, Hm1.
  match goal with
  | |- context [ for_each possible_cpus ?b ?s2 ] =>
      destruct (for_each_calls_inv (same_variables s) possible_cpus b
                  (release_calls (workarounds s))) with (s := s2)
        as [_ Hl2]
  end.
  { intros c s' Hs'. unfold free_ibs_buffer.
    pose proof (update_dev_same_variables (per_cpu_ptr FetchArea c)
                  (set_buf None) s s' Hs') as H1.
    pose proof (update_dev_same_variables (per_cpu_ptr OpArea c)
                  (set_buf None) s _ H1) as H2.
    rewrite !bind_unfold. msimpl.
    destruct H2 as (Hc & Hw & Hm).
    unfold release_calls, free_buffers_calls. rewrite Hw.
    rewrite !calls_update_dev.
    unfold stop_fam17h_m01h_static_workaround.
    destruct (workaround_fam17h_m01h (workarounds s) =? 0); msimpl;
      (split; [repeat split; assumption | reflexivity]). }
  { repeat split; assumption. }
  unfold calls in Hl2. rewrite Hl2. reflexivity.
Qed.

End Unload.

(** * The claims on concrete machines *)

Section OnFam17h.
#[local] Existing Instance example_headers.
#[local] Existing Instance fam17h_m01h.

Example fam17h_load_succeeds : result (ibs_init fresh) = 0.
Proof. vm_compute. reflexivity. Qed.

Example fam17h_unload_calls :
  calls (ibs_exit fam17h_loaded)
  = [EvUnregisterNmiHandler; EvNotifierRegisterBegin;
     EvDeviceDestroy 0 0; EvDeviceDestroy 0 1;
     EvClassDestroy; EvUnregisterChrdev 250;
     EvUnregisterHotcpuNotifier; EvNotifierRegisterDone;
     EvFreeBuffer (FetchArea, 0); EvFreeBuffer (OpArea, 0);
     EvStopWorkaround 0;
     EvFreeBuffer (FetchArea, 1); EvFreeBuffer (OpArea, 1);
     EvStopWorkaround 1;
     EvFreeBuffer (FetchArea, 2); EvFreeBuffer (OpArea, 2);
     EvStopWorkaround 2;
     EvFreeBuffer (FetchArea, 3); EvFreeBuffer (OpArea, 3);
     EvStopWorkaround 3;
     EvFreePercpu FetchArea; EvFreePercpu OpArea;
     EvFreeWorkaroundStructs].
Proof. vm_compute. reflexivity. Qed.

(** C4 as the specification words it fails on this machine: the hot-plug
    notifier is unregistered after the handles, the class and the
    device-number region are gone, and each core's workaround is stopped
    before the per-core areas are freed. *)
Lemma ibs_exit_not_in_specified_order :
  ~ in_specified_order (calls (ibs_exit fam17h_loaded)).
Proof. unfold in_specified_order. vm_compute. discriminate. Qed.

End OnFam17h.

Section OnFam17hWitnesses.
#[local] Existing Instance example_headers.
#[local] Existing Instance fam17h_m01h.

Lemma fam17h_m01h_replaces_feature_bit_witness :
  Z.testbit (cpuid_ecx 0x80000001) 10 = false
  /\ workaround_fam17h_m01h (workarounds fresh) = 0
  /\ workaround_fam17h_m01h
       (workarounds (final (check_for_ibs_support fresh))) = 1
  /\ calls (check_for_ibs_support fresh)
     = [EvStartWorkaround 0; EvStartWorkaround 1].
Proof.
  assert (Hbit : Z.testbit (cpuid_ecx 0x80000001) 10 = false)
    by reflexivity.
  assert (Hflag : workaround_fam17h_m01h (workarounds fresh) = 0)
    by reflexivity.
  split; [exact Hbit|]. split; [exact Hflag|].
  destruct (fam17h_m01h_replaces_feature_bit fresh Hbit Hflag) as [H _].
  destruct H as (H1 & H2 & _); [reflexivity | reflexivity | reflexivity|].
  split; [exact H1 | exact H2].
Defined.

Lemma op_supported_iff_any_op_bit_witness :
  result (check_for_ibs_support fresh) = 0
  /\ ibs_op_supported (caps (final (check_for_ibs_support fresh))) <> 0.
Proof.
  assert (H0 : result (check_for_ibs_support fresh) = 0)
    by (vm_compute; reflexivity).
  split; [exact H0|].
  apply (proj2 (op_supported_iff_any_op_bit fresh H0)).
  left. reflexivity.
Defined.

Lemma down_prepare_disables_both_witness :
  workaround_fam17h_m01h (workarounds fam17h_loaded) <> 0
  /\ (1 ∉ workaround_active
            (final (ibs_class_cpu_callback CPU_DOWN_PREPARE 1
                      fam17h_loaded)))
  /\ ((IBS_OP, 1) ∉ sampling
            (final (ibs_class_cpu_callback CPU_DOWN_PREPARE 1
                      fam17h_loaded))).
Proof.
  assert (Hw : workaround_fam17h_m01h (workarounds fam17h_loaded) <> 0)
    by (vm_compute; discriminate).
  split; [exact Hw|].
  destruct (down_prepare_disables_both 1 fam17h_loaded)
    as (_ & Hop & _ & _ & Hstop & _).
  split; [exact (Hstop Hw) | exact Hop].
Defined.

Lemma handle_creation_asymmetric_witness :
  (EvDeviceCreate IBS_OP 0 ∈ calls (ibs_init fresh))
  /\ ibs_op_supported (caps fam17h_loaded) <> 0
  /\ ibs_fetch_supported (caps fam17h_loaded) = 0
  /\ exists rest,
       calls (ibs_class_cpu_callback CPU_UP_PREPARE 2 fam17h_loaded)
       = EvDeviceCreate IBS_OP 2 :: EvDeviceCreate IBS_FETCH 2 :: rest.
Proof.
  destruct handle_creation_asymmetric as (Hinit & Hprep & _).
  assert (Hin : EvDeviceCreate IBS_OP 0 ∈ calls (ibs_init fresh))
    by (vm_compute; repeat constructor).
  split; [exact Hin|]. split.
  - destruct (Hinit fresh IBS_OP 0 Hin) as [[_ H]|[Habs _]];
      [exact H | discriminate Habs].
  - split; [reflexivity|].
    destruct (Hprep fam17h_loaded 2 no_caps) as (_ & H & _).
    apply H. reflexivity.
Defined.

End OnFam17hWitnesses.

Section OnFam15h.
#[local] Existing Instance example_headers.

Lemma init_ibs_dev_records_witness :
  sizeof_ibs_op <> sizeof_ibs_fetch
  /\ entry_size (init_ibs_op_dev fresh zero_dev 3) = 104
  /\ entry_size (init_ibs_fetch_dev fresh zero_dev 3) = 72
  /\ cpu (init_ibs_op_dev fresh zero_dev 3) = 3.
Proof.
  assert (Hsz : sizeof_ibs_op <> sizeof_ibs_fetch) by discriminate.
  split; [exact Hsz|].
  destruct (init_ibs_dev_records fresh zero_dev 3 Hsz)
    as ((Hc & _ & He & _) & (_ & _ & He' & _) & _).
  split; [exact He|]. split; [exact He' | exact Hc].
Defined.

Lemma no_sampling_support_fails_load_witness :
  Z.testbit (capability_word (plat := fam15h_no_capabilities)) 0 = false
  /\ result (ibs_init (plat := fam15h_no_capabilities) fresh) = - EINVAL
  /\ pcpu_op_dev (final (ibs_init (plat := fam15h_no_capabilities) fresh))
     = None.
Proof.
  assert (Hv : Z.testbit (capability_word (plat := fam15h_no_capabilities))
                 0 = false) by reflexivity.
  split; [exact Hv|].
  destruct (no_sampling_support_fails_load
              (plat := fam15h_no_capabilities) fresh (or_introl Hv))
    as (Hr & _ & _ & _ & Hop & _).
  split; [exact Hr | exact Hop].
Defined.

Lemma chrdev_failure_returns_zero_witness :
  register_chrdev_ret (Platform := fam15h_no_chrdev) < 0
  /\ result (ibs_init (plat := fam15h_no_chrdev) fresh) = 0
  /\ pcpu_op_dev (final (ibs_init (plat := fam15h_no_chrdev) fresh)) = None
  /\ pcpu_fetch_dev (final (ibs_init (plat := fam15h_no_chrdev) fresh))
     = None.
Proof.
  split; [reflexivity|].
  destruct (chrdev_failure_returns_zero (plat := fam15h_no_chrdev) fresh)
    as (Hr & Hop & Hfetch & _);
    [vm_compute; reflexivity | reflexivity | reflexivity | reflexivity
    | intros d; reflexivity | reflexivity |].
  split; [exact Hr|]. split; [exact Hop | exact Hfetch].
Defined.

Lemma prepare_failure_rolls_back_witness :
  IS_ERR (device_create_ret (Platform := fam15h_no_fetch_handle) IBS_OP 1)
  = false
  /\ IS_ERR (device_create_ret (Platform := fam15h_no_fetch_handle)
               IBS_FETCH 1) = true
  /\ calls (ibs_class_cpu_callback (plat := fam15h_no_fetch_handle)
              CPU_UP_PREPARE 1 fresh)
     = [EvDeviceCreate IBS_OP 1; EvDeviceCreate IBS_FETCH 1;
        EvDeviceDestroy IBS_OP 1]
  /\ notifier_fails
       (result (ibs_class_cpu_callback (plat := fam15h_no_fetch_handle)
                  CPU_UP_PREPARE 1 fresh))
       (- ENOMEM).
Proof.
  split; [reflexivity|]. split; [reflexivity|].
  destruct (prepare_failure_rolls_back (plat := fam15h_no_fetch_handle)
              1 fresh) as [_ H].
  destruct H as (Hc & _ & _ & Hn); [reflexivity | reflexivity|].
  split; [exact Hc | exact Hn].
Defined.

Lemma cancel_or_dead_destroys_both_witness :
  (CPU_DEAD = CPU_UP_CANCELED \/ CPU_DEAD = CPU_UP_CANCELED_FROZEN
   \/ CPU_DEAD = CPU_DEAD)
  /\ calls (ibs_class_cpu_callback (plat := fam15h) CPU_DEAD 1
              (final (ibs_init (plat := fam15h) fresh)))
     = [EvDeviceDestroy IBS_OP 1; EvDeviceDestroy IBS_FETCH 1]
  /\ ((IBS_OP, 1) ∉ handles
        (final (ibs_class_cpu_callback (plat := fam15h) CPU_DEAD 1
                  (final (ibs_init (plat := fam15h) fresh))))).
Proof.
  assert (Ha : CPU_DEAD = CPU_UP_CANCELED
               \/ CPU_DEAD = CPU_UP_CANCELED_FROZEN \/ CPU_DEAD = CPU_DEAD)
    by (right; right; reflexivity).
  split; [exact Ha|].
  destruct (cancel_or_dead_destroys_both (plat := fam15h) CPU_DEAD 1
              (final (ibs_init (plat := fam15h) fresh)) Ha)
    as (Hc & Hop & _).
  split; [exact Hc | exact Hop].
Defined.

End OnFam15h.

(** * Further properties of the driver *)

#[local] Set Warnings "-clear-no-such-hyp".

(** ** What a run leaves alone *)

Lemma preserves_ret {X A} (f : kstate -> X) (a : A) : preserves f (ret a).
Proof. intros s. reflexivity. Qed.

Lemma preserves_emit {X} (f : kstate -> X) e : preserves f (emit e).
Proof. intros s. reflexivity. Qed.

Lemma preserves_get {X} (f : kstate -> X) : preserves f get.
Proof. intros s. reflexivity. Qed.

Lemma preserves_modify {X} (f : kstate -> X) g :
  (forall s, f (g s) = f s) -> preserves f (modify g).
Proof. intros H s. apply H. Qed.

Lemma preserves_bind {X A B} (f : kstate -> X) (m : M A) (k : A -> M B) :
  preserves f m -> (forall a, preserves f (k a)) -> preserves f (bind m k).
Proof.
  intros Hm Hk s. rewrite final_bind, Hk. apply Hm.
Qed.

Lemma preserves_for_each {X} (f : kstate -> X) cpus (body : Z -> M unit) :
  (forall c, preserves f (body c)) -> preserves f (for_each cpus body).
Proof.
  intros Hb. induction cpus as [|c cpus IH]; cbn [for_each].
  - apply preserves_ret.
  - apply preserves_bind; [apply Hb | intros _; exact IH].
Qed.

Lemma preserves_update_dev {X} (f : kstate -> X) p g :
  ignores_areas f -> preserves f (update_dev p g).
Proof.
  intros Hf. apply preserves_modify. intros s.
  destruct (area_of (fst p) s); [apply Hf | reflexivity].
Qed.

Lemma preserves_set_area {X} (f : kstate -> X) a m :
  ignores_areas f -> preserves f (modify (set_area a m)).
Proof. intros Hf. apply preserves_modify. intros s. apply Hf. Qed.

Ltac ignores_areas_tac :=
  let a := fresh in intros a ? ?; destruct a; reflexivity.

Lemma caps_ignores_areas : ignores_areas caps.
Proof. ignores_areas_tac. Qed.
Lemma workarounds_ignores_areas : ignores_areas workarounds.
Proof. ignores_areas_tac. Qed.
Lemma ibs_major_ignores_areas : ignores_areas ibs_major.
Proof. ignores_areas_tac. Qed.
Lemma ibs_class_ignores_areas : ignores_areas ibs_class.
Proof. ignores_areas_tac. Qed.
Lemma handles_ignores_areas : ignores_areas handles.
Proof. ignores_areas_tac. Qed.
Lemma sampling_ignores_areas : ignores_areas sampling.
Proof. ignores_areas_tac. Qed.
Lemma workaround_active_ignores_areas : ignores_areas workaround_active.
Proof. ignores_areas_tac. Qed.

Create HintDb frames discriminated.
#[export] Hint Resolve caps_ignores_areas workarounds_ignores_areas
  ibs_major_ignores_areas ibs_class_ignores_areas handles_ignores_areas
  sampling_ignores_areas workaround_active_ignores_areas : frames.

(** One structural step of a frame proof. *)
Ltac preserves_step :=
  first
    [ apply preserves_ret
    | apply preserves_emit
    | apply preserves_get
    | apply preserves_update_dev; solve [auto with frames]
    | apply preserves_set_area; solve [auto with frames]
    | apply preserves_modify; intros ?; reflexivity
    | apply preserves_for_each; intros ?
    | apply preserves_bind; [| intros ?]
    | match goal with
      | |- preserves _ (if ?b then _ else _) => destruct b
      | |- preserves _ (match ?f with Next _ => _ | Jump _ => _ end) =>
          destruct f
      end ].

Ltac preserves_all := repeat preserves_step; auto with frames.

(** ** More on the capability prober *)

Section ProberMore.
Context {hdr : Headers} {plat : Platform}.

Lemma reports_sampling_bits :
  reports_sampling capability_word = true
  <-> Z.testbit (cpuid_eax 0x8000001B) 0 = true
      /\ (Z.testbit (cpuid_eax 0x8000001B) 1 = true
          \/ Z.testbit (cpuid_eax 0x8000001B) 2 = true
          \/ Z.testbit (cpuid_eax 0x8000001B) 3 = true
          \/ Z.testbit (cpuid_eax 0x8000001B) 4 = true).
Proof.
  unfold reports_sampling, capability_word.
  rewrite !to_uint_testbit by lia.
  destruct (Z.testbit (cpuid_eax 0x8000001B) 0),
    (Z.testbit (cpuid_eax 0x8000001B) 1),
    (Z.testbit (cpuid_eax 0x8000001B) 2),
    (Z.testbit (cpuid_eax 0x8000001B) 3),
    (Z.testbit (cpuid_eax 0x8000001B) 4); cbn; intuition congruence.
Qed.

Lemma feature_bit_test :
  (Z.land feature_word (Z.shiftl 1 10) =? 0)
  = negb (Z.testbit (cpuid_ecx 0x80000001) 10).
Proof.
  rewrite land_bit_zero by lia. unfold feature_word.
  rewrite to_uint_testbit by lia. reflexivity.
Qed.

(** X1: the prober returns 0 or -EINVAL, and 0 exactly on an AMD
    processor of family 10h or later other than 11h whose feature word
    has bit 10 set (or whose Family 17h flag is already set, or which is
    Family 17h Model 01h) and whose capability word has the flags-valid
    bit and the fetch bit or one of the three op bits. *)
Theorem prober_accepts_iff (s : kstate) :
  (result (check_for_ibs_support s) = 0
   \/ result (check_for_ibs_support s) = - EINVAL)
  /\ (result (check_for_ibs_support s) = 0
      <-> x86_vendor = X86_VENDOR_AMD /\ 0x10 <= x86 /\ x86 <> 0x11
          /\ (Z.testbit (cpuid_ecx 0x80000001) 10 = true
              \/ workaround_fam17h_m01h (workarounds s) <> 0
              \/ (x86 = 0x17 /\ x86_model = 0x1))
          /\ Z.testbit (cpuid_eax 0x8000001B) 0 = true
          /\ (Z.testbit (cpuid_eax 0x8000001B) 1 = true
              \/ Z.testbit (cpuid_eax 0x8000001B) 2 = true
              \/ Z.testbit (cpuid_eax 0x8000001B) 3 = true
              \/ Z.testbit (cpuid_eax 0x8000001B) 4 = true)).
Proof.
  split.
  { destruct (check_for_ibs_support_result s) as [E|[E _]]; auto. }
  rewrite check_for_ibs_support_unfold. cbv zeta.
  rewrite family_workarounds_fam17h, feature_bit_test.
  pose proof reports_sampling_bits as Hrep.
  destruct (Z.eqb_spec x86_vendor X86_VENDOR_AMD) as [Hv|Hv]; cbn [negb];
    [|cbn; split; [discriminate | tauto]].
  destruct (Z.ltb_spec x86 0x10) as [Ho|Ho]; cbn [orb];
    [cbn; split; [discriminate | lia]|].
  destruct (Z.eqb_spec x86 0x11) as [Ho'|Ho'];
    [cbn; split; [discriminate | tauto]|].
  destruct (Z.testbit (cpuid_ecx 0x80000001) 10); cbn [negb andb].
  { rewrite check_capability_flags_result.
    destruct (reports_sampling capability_word).
    - split; [intros _|reflexivity].
      split; [exact Hv|]. split; [lia|]. split; [exact Ho'|].
      split; [left; reflexivity|]. apply Hrep. reflexivity.
    - split; [discriminate|]. intros (_ & _ & _ & _ & H).
      apply Hrep in H. discriminate. }
  destruct (Z.eqb_spec (workaround_fam17h_m01h (workarounds s)) 0)
    as [Hf|Hf].
  - destruct (Z.eqb_spec x86 0x17) as [H17|H17]; cbn [andb];
      [destruct (Z.eqb_spec x86_model 0x1) as [Hm|Hm]|].
    + cbn [result fst]. rewrite check_capability_flags_result.
      destruct (reports_sampling capability_word).
      * split; [intros _|reflexivity].
        split; [exact Hv|]. split; [lia|]. split; [exact Ho'|].
        split; [right; right; split; assumption|]. apply Hrep. reflexivity.
      * split; [discriminate|]. intros (_ & _ & _ & _ & H).
        apply Hrep in H. discriminate.
    + cbn. split; [discriminate|].
      intros (_ & _ & _ & [H|[H|[_ H]]] & _);
        [discriminate | contradiction | contradiction].
    + cbn. split; [discriminate|].
      intros (_ & _ & _ & [H|[H|[H _]]] & _);
        [discriminate | contradiction | contradiction].
  - rewrite check_capability_flags_result.
    destruct (reports_sampling capability_word).
    + split; [intros _|reflexivity].
      split; [exact Hv|]. split; [lia|]. split; [exact Ho'|].
      split; [right; left; exact Hf|]. apply Hrep. reflexivity.
    + split; [discriminate|]. intros (_ & _ & _ & _ & H).
      apply Hrep in H. discriminate.
Qed.

Lemma check_capability_flags_caps (s : kstate) :
  reports_sampling capability_word = true ->
  caps (final (check_capability_flags s))
  = {| ibs_fetch_supported := Z.land capability_word (Z.shiftl 1 1);
       ibs_op_supported :=
         Z.lor (Z.lor (Z.land capability_word (Z.shiftl 1 2))
                      (Z.land capability_word (Z.shiftl 1 3)))
               (Z.land capability_word (Z.shiftl 1 4));
       ibs_brn_trgt_supported := Z.land capability_word (Z.shiftl 1 5);
       ibs_op_cnt_ext_supported := Z.land capability_word (Z.shiftl 1 6);
       ibs_rip_invalid_chk_supported :=
         Z.land capability_word (Z.shiftl 1 7);
       ibs_op_brn_fuse_supported := Z.land capability_word (Z.shiftl 1 8);
       ibs_fetch_ctl_extd_supported :=
         Z.land capability_word (Z.shiftl 1 9);
       ibs_op_data4_supported := Z.land capability_word (Z.shiftl 1 10) |}.
Proof.
  intros Hrep. unfold check_capability_flags.
  unfold reports_sampling in Hrep. rewrite land_one_zero.
  destruct (Z.testbit capability_word 0); [|discriminate]. msimpl.
  rewrite !lor_zero, !land_bit_zero by lia.
  destruct (Z.testbit capability_word 1), (Z.testbit capability_word 2),
    (Z.testbit capability_word 3), (Z.testbit capability_word 4);
    try discriminate; reflexivity.
Qed.

(** A successful prober ends in the capability stage. *)
Lemma check_for_ibs_support_success (s : kstate) :
  result (check_for_ibs_support s) = 0 ->
  exists s1,
    final (check_for_ibs_support s) = final (check_capability_flags s1)
    /\ reports_sampling capability_word = true.
Proof.
  intros H0.
  assert (Hrep : reports_sampling capability_word = true).
  { destruct (check_for_ibs_support_result s) as [E|[_ E]]; [|exact E].
    rewrite E in H0. discriminate. }
  revert H0. rewrite check_for_ibs_support_unfold. case_ifs;
    cbn [result final fst snd]; try discriminate; intros _;
    eexists; (split; [reflexivity | exact Hrep]).
Qed.

Lemma op_bits_mask (w : Z) :
  Z.lor (Z.lor (Z.land w (Z.shiftl 1 2)) (Z.land w (Z.shiftl 1 3)))
        (Z.land w (Z.shiftl 1 4))
  = Z.land w 0x1c.
Proof. rewrite <- !Z.land_lor_distr_r. reflexivity. Qed.

(** X2: when the prober succeeds, each capability flag holds the
    capability word masked to its bit (the op flag to bits 2 to 4), so a
    flag is a mask value and not 0 or 1, and the fetch flag or the op flag
    is nonzero. *)
Theorem prober_capability_flags (s : kstate) :
  result (check_for_ibs_support s) = 0 ->
  let c := caps (final (check_for_ibs_support s)) in
  ibs_fetch_supported c = Z.land capability_word 0x2
  /\ ibs_op_supported c = Z.land capability_word 0x1c
  /\ ibs_brn_trgt_supported c = Z.land capability_word 0x20
  /\ ibs_op_cnt_ext_supported c = Z.land capability_word 0x40
  /\ ibs_rip_invalid_chk_supported c = Z.land capability_word 0x80
  /\ ibs_op_brn_fuse_supported c = Z.land capability_word 0x100
  /\ ibs_fetch_ctl_extd_supported c = Z.land capability_word 0x200
  /\ ibs_op_data4_supported c = Z.land capability_word 0x400
  /\ (ibs_fetch_supported c <> 0 \/ ibs_op_supported c <> 0).
Proof.
  intros H0 c. subst c.
  destruct (check_for_ibs_support_success s H0) as (s1 & -> & Hrep).
  rewrite (check_capability_flags_caps s1 Hrep).
  cbn [ibs_fetch_supported ibs_op_supported ibs_brn_trgt_supported
       ibs_op_cnt_ext_supported ibs_rip_invalid_chk_supported
       ibs_op_brn_fuse_supported ibs_fetch_ctl_extd_supported
       ibs_op_data4_supported].
  rewrite op_bits_mask. repeat (split; [reflexivity|]).
  rewrite <- op_bits_mask, <- !Z.eqb_neq, !lor_zero, !land_bit_zero by lia.
  unfold reports_sampling in Hrep.
  destruct (Z.testbit capability_word 0), (Z.testbit capability_word 1),
    (Z.testbit capability_word 2), (Z.testbit capability_word 3),
    (Z.testbit capability_word 4); try discriminate; cbn; auto.
Qed.

(** X3: once the vendor and family tests are passed, the prober leaves,
    of workaround flags that were all zero, the Family 10h flag at 1
    exactly on family 10h, the Family 15h flag at 1 exactly on family 15h
    models 00h-1Fh and the Family 17h flag at 1 exactly on Family 17h
    Model 01h with the feature bit clear, whether or not it then
    succeeds; so at most one of the three is ever set. *)
Theorem prober_workaround_flags (s : kstate) :
  workarounds s = no_workarounds ->
  x86_vendor = X86_VENDOR_AMD -> 0x10 <= x86 -> x86 <> 0x11 ->
  let w := workarounds (final (check_for_ibs_support s)) in
  workaround_fam10h_err_420 w = (if x86 =? 0x10 then 1 else 0)
  /\ workaround_fam15h_err_718 w
     = (if (x86 =? 0x15) && (x86_model <=? 0x1f) then 1 else 0)
  /\ workaround_fam17h_m01h w
     = (if negb (Z.testbit (cpuid_ecx 0x80000001) 10)
           && ((x86 =? 0x17) && (x86_model =? 0x1)) then 1 else 0)
  /\ workaround_fam10h_err_420 w + workaround_fam15h_err_718 w
     + workaround_fam17h_m01h w <= 1.
Proof.
  intros Hw Hv Hlo Hne w. subst w.
  rewrite check_for_ibs_support_unfold. cbv zeta.
  rewrite family_workarounds_fam17h, feature_bit_test, Hw.
  destruct (Z.eqb_spec x86_vendor X86_VENDOR_AMD); [|contradiction].
  destruct (Z.ltb_spec x86 0x10); [lia|].
  destruct (Z.eqb_spec x86 0x11); [contradiction|].
  cbn [negb orb workaround_fam17h_m01h no_workarounds Z.eqb andb].
  unfold family_workarounds.
  rewrite andb_true_r.
  destruct (Z.testbit (cpuid_ecx 0x80000001) 10); cbn [negb andb];
    [|destruct ((x86 =? 0x17) && (x86_model =? 0x1)) eqn:E17;
      cbn [final fst snd]];
    repeat match goal with
           | |- context [ check_capability_flags ?s1 ] =>
               destruct (check_capability_flags_frame s1) as [c' ->]
           end;
    cbn [workarounds set_caps set_workarounds set_workaround_active];
    try (apply andb_true_iff in E17 as [E17 _]; apply Z.eqb_eq in E17;
         rewrite E17);
    destruct (Z.eqb_spec x86 0x10) as [E10|E10]; try rewrite E10;
    cbn [Z.eqb Pos.eqb andb];
    try (destruct ((x86 =? 0x15) && (x86_model <=? 0x1f)) eqn:E15);
    cbn; repeat split; try lia; try reflexivity.
Qed.

(** X4: the prober never changes the per-core storage, the handles, the
    sampling hardware, the device number or the class.  Its only call is
    the start of the Family 17h workaround, made for each online core and
    only on a Family 17h Model 01h part with the feature bit clear; with
    the feature bit set it calls nothing and the set of cores the
    workaround runs on is as before. *)
Theorem prober_side_effects (s : kstate) :
  let r := check_for_ibs_support s in
  (pcpu_op_dev (final r) = pcpu_op_dev s
   /\ pcpu_fetch_dev (final r) = pcpu_fetch_dev s
   /\ handles (final r) = handles s /\ sampling (final r) = sampling s
   /\ ibs_major (final r) = ibs_major s /\ ibs_class (final r) = ibs_class s)
  /\ (calls r = [] /\ workaround_active (final r) = workaround_active s
      \/ calls r = map EvStartWorkaround online_cpus
         /\ workaround_active (final r)
            = workaround_active s ∪ list_to_set online_cpus
         /\ x86 = 0x17 /\ x86_model = 0x1
         /\ Z.testbit (cpuid_ecx 0x80000001) 10 = false)
  /\ (Z.testbit (cpuid_ecx 0x80000001) 10 = true -> calls r = []).
Proof.
  intros r. subst r. split; [apply check_for_ibs_support_frame|].
  rewrite check_for_ibs_support_unfold. cbv zeta.
  rewrite feature_bit_test.
  destruct (negb (x86_vendor =? X86_VENDOR_AMD)); [cbn; auto|].
  destruct ((x86 <? 0x10) || (x86 =? 0x11)); [cbn; auto|].
  destruct (Z.testbit (cpuid_ecx 0x80000001) 10) eqn:Ebit; cbn [negb andb].
  { rewrite check_capability_flags_calls.
    destruct (check_capability_flags_frame
                (set_workarounds (family_workarounds (workarounds s)) s))
      as [c' ->]. cbn. auto. }
  destruct (workaround_fam17h_m01h (family_workarounds (workarounds s)) =? 0).
  - destruct (Z.eqb_spec x86 0x17) as [E17|E17]; cbn [andb];
      [destruct (Z.eqb_spec x86_model 0x1) as [Em|Em]|];
      cbn [calls final fst snd].
    + rewrite check_capability_flags_calls, app_nil_r.
      match goal with
      | |- context [ check_capability_flags ?s1 ] =>
          destruct (check_capability_flags_frame s1) as [c' ->]
      end.
      split; [right; cbn; auto | discriminate].
    + split; [left; cbn; auto | discriminate].
    + split; [left; cbn; auto | discriminate].
  - rewrite check_capability_flags_calls.
    destruct (check_capability_flags_frame
                (set_workarounds (family_workarounds (workarounds s)) s))
      as [c' ->]. cbn. split; [auto | discriminate].
Qed.

End ProberMore.

(** ** More on the hot-plug callback *)

Section HotplugMore.
Context {hdr : Headers} {plat : Platform}.

(** The callback on CPU_ONLINE. *)
Lemma callback_online (hcpu : Z) (s : kstate) :
  let c := to_uint hcpu in
  ibs_class_cpu_callback CPU_ONLINE hcpu s
  = if workaround_fam17h_m01h (workarounds s) =? 0
    then (NOTIFY_OK, s, [EvSetupLvt])
    else (NOTIFY_OK,
          set_workaround_active (workaround_active s ∪ {[ c ]}) s,
          [EvSetupLvt; EvStartWorkaround c]).
Proof.
  intros c. unfold ibs_class_cpu_callback. fold c.
  change (CPU_ONLINE =? CPU_UP_PREPARE) with false.
  change (CPU_ONLINE =? CPU_ONLINE) with true. cbv iota.
  unfold ibs_setup_lvt, start_fam17h_m01h_static_workaround. mexec.
  destruct (workaround_fam17h_m01h (workarounds s) =? 0); reflexivity.
Qed.

(** The callback on an action it has no case for. *)
Lemma callback_ignored (action hcpu : Z) (s : kstate) :
  action <> CPU_UP_PREPARE -> action <> CPU_ONLINE ->
  action <> CPU_UP_CANCELED -> action <> CPU_UP_CANCELED_FROZEN ->
  action <> CPU_DEAD -> action <> CPU_DOWN_PREPARE ->
  ibs_class_cpu_callback action hcpu s = (NOTIFY_OK, s, []).
Proof.
  intros H1 H2 H3 H4 H5 H6. unfold ibs_class_cpu_callback.
  apply Z.eqb_neq in H1, H2, H3, H4, H5, H6.
  rewrite H1, H2, H3, H4, H5, H6. reflexivity.
Qed.

(** X5: an action other than CPU_UP_PREPARE, CPU_ONLINE, CPU_UP_CANCELED,
    CPU_UP_CANCELED_FROZEN, CPU_DEAD and CPU_DOWN_PREPARE (so also the
    frozen variants of preparing, coming online, dying and going down) is
    ignored: the callback returns NOTIFY_OK, calls nothing and leaves the
    state as it is. *)
Theorem callback_ignores_other_actions (action hcpu : Z) (s : kstate) :
  action <> CPU_UP_PREPARE -> action <> CPU_ONLINE ->
  action <> CPU_UP_CANCELED -> action <> CPU_UP_CANCELED_FROZEN ->
  action <> CPU_DEAD -> action <> CPU_DOWN_PREPARE ->
  let r := ibs_class_cpu_callback action hcpu s in
  result r = NOTIFY_OK /\ final r = s /\ calls r = [].
Proof.
  intros H1 H2 H3 H4 H5 H6 r. subst r.
  rewrite callback_ignored by assumption. repeat split.
Qed.

(** The six handled actions, or none of them. *)
Lemma action_cases (action : Z) :
  action = CPU_UP_PREPARE \/ action = CPU_ONLINE
  \/ (action = CPU_UP_CANCELED \/ action = CPU_UP_CANCELED_FROZEN
      \/ action = CPU_DEAD)
  \/ action = CPU_DOWN_PREPARE
  \/ (action <> CPU_UP_PREPARE /\ action <> CPU_ONLINE
      /\ action <> CPU_UP_CANCELED /\ action <> CPU_UP_CANCELED_FROZEN
      /\ action <> CPU_DEAD /\ action <> CPU_DOWN_PREPARE).
Proof.
  destruct (Z.eq_dec action CPU_UP_PREPARE); [tauto|].
  destruct (Z.eq_dec action CPU_ONLINE); [tauto|].
  destruct (Z.eq_dec action CPU_UP_CANCELED); [tauto|].
  destruct (Z.eq_dec action CPU_UP_CANCELED_FROZEN); [tauto|].
  destruct (Z.eq_dec action CPU_DEAD); [tauto|].
  destruct (Z.eq_dec action CPU_DOWN_PREPARE); tauto.
Qed.

(** X6: only CPU_UP_PREPARE can fail a transition.  On every other action
    the callback returns NOTIFY_OK; on CPU_UP_PREPARE it returns
    NOTIFY_OK or a result with the stop bit that carries a negative
    errno. *)
Theorem callback_only_prepare_fails (action hcpu : Z) (s : kstate) :
  let r := ibs_class_cpu_callback action hcpu s in
  (action <> CPU_UP_PREPARE -> result r = NOTIFY_OK)
  /\ (result r = NOTIFY_OK \/ exists err, notifier_fails (result r) err).
Proof.
  intros r. subst r.
  destruct (action_cases action) as [->|[->|[Hr|[->|Hn]]]].
  - split; [intros H; contradiction|].
    rewrite callback_up_prepare. cbv zeta.
    destruct (IS_ERR (device_create_ret IBS_OP _)) eqn:Eop;
      [|destruct (IS_ERR (device_create_ret IBS_FETCH _)) eqn:Ef];
      cbn [result fst]; [right | right | left; reflexivity];
      eexists; apply notifier_from_errno_fails, PTR_ERR_range; assumption.
  - rewrite callback_online. cbv zeta.
    destruct (workaround_fam17h_m01h (workarounds s) =? 0); cbn; auto.
  - rewrite (callback_removed action hcpu s Hr). cbn. auto.
  - rewrite callback_down_prepare. cbv zeta.
    destruct (workaround_fam17h_m01h (workarounds s) =? 0); cbn; auto.
  - destruct Hn as (H1 & H2 & H3 & H4 & H5 & H6).
    rewrite callback_ignored by assumption. cbn. auto.
Qed.

(** X7: no hot-plug event changes the capability flags, the workaround
    flags, the device number, the class or the per-core device storage:
    the devices and their buffers outlive every create and destroy of
    their handles. *)
Theorem callback_keeps_devices (action hcpu : Z) (s : kstate) :
  let s' := final (ibs_class_cpu_callback action hcpu s) in
  caps s' = caps s /\ workarounds s' = workarounds s
  /\ ibs_major s' = ibs_major s /\ ibs_class s' = ibs_class s
  /\ pcpu_op_dev s' = pcpu_op_dev s /\ pcpu_fetch_dev s' = pcpu_fetch_dev s.
Proof.
  assert (H : forall X (f : kstate -> X),
             (forall h s, f (set_handles h s) = f s) ->
             (forall h s, f (set_sampling h s) = f s) ->
             (forall h s, f (set_workaround_active h s) = f s) ->
             f (final (ibs_class_cpu_callback action hcpu s)) = f s).
  { intros X f Hh Hs Hw.
    destruct (action_cases action) as [->|[->|[Hr|[->|Hn]]]].
    - rewrite callback_up_prepare. cbv zeta. case_ifs;
        cbn [final fst snd]; rewrite ?Hh; reflexivity.
    - rewrite callback_online. cbv zeta. case_ifs;
        cbn [final fst snd]; rewrite ?Hw; reflexivity.
    - rewrite (callback_removed action hcpu s Hr). cbn [final fst snd].
      apply Hh.
    - rewrite callback_down_prepare. cbv zeta. case_ifs;
        cbn [final fst snd]; rewrite ?Hw, ?Hs; reflexivity.
    - destruct Hn as (H1 & H2 & H3 & H4 & H5 & H6).
      rewrite callback_ignored by assumption. reflexivity. }
  cbv zeta. repeat split; apply H; reflexivity.
Qed.

(** X8: on CPU_ONLINE the callback sets up the local APIC vector and,
    exactly when the Family 17h flag is nonzero, starts the workaround on
    the core; handles and sampling are untouched.  A CPU_DOWN_PREPARE
    that follows takes the core out of the set the workaround runs on
    again, so a core that was not in it leaves the set as it was. *)
Theorem online_then_down_prepare (hcpu : Z) (s : kstate) :
  let c := to_uint hcpu in
  let r1 := ibs_class_cpu_callback CPU_ONLINE hcpu s in
  let r2 := ibs_class_cpu_callback CPU_DOWN_PREPARE hcpu (final r1) in
  calls r1
  = EvSetupLvt
    :: (if workaround_fam17h_m01h (workarounds s) =? 0 then []
        else [EvStartWorkaround c])
  /\ result r1 = NOTIFY_OK
  /\ handles (final r1) = handles s /\ sampling (final r1) = sampling s
  /\ (workaround_fam17h_m01h (workarounds s) <> 0 ->
      (c ∈ workaround_active (final r1))
      /\ (c ∉ workaround_active (final r2)))
  /\ (workaround_fam17h_m01h (workarounds s) = 0 ->
      workaround_active (final r1) = workaround_active s)
  /\ ((c ∉ workaround_active s) ->
      workaround_active (final r2) = workaround_active s).
Proof.
  intros c r1 r2. subst r1 r2.
  rewrite callback_down_prepare, callback_online. fold c. cbv zeta.
  destruct (Z.eqb_spec (workaround_fam17h_m01h (workarounds s)) 0) as [E|E];
    cbn [result final calls fst snd workarounds set_workaround_active].
  - destruct (Z.eqb_spec (workaround_fam17h_m01h (workarounds s)) 0);
      [|contradiction].
    cbn [final fst snd workaround_active set_sampling handles sampling].
    repeat split; try reflexivity; intros; contradiction.
  - destruct (Z.eqb_spec (workaround_fam17h_m01h (workarounds s)) 0);
      [contradiction|].
    cbn [final fst snd workaround_active set_sampling
         set_workaround_active handles sampling].
    repeat split; try reflexivity; intros; try contradiction.
    + sets.
    + sets.
    + apply set_eq. intros x. sets.
Qed.

(** X9: ibs_device_create makes one device_create call and returns 0, in
    which case the handle exists afterwards and nothing else changed, or
    an errno between -4095 and -1, in which case the state is as before;
    it never returns a positive value. *)
Theorem ibs_device_create_outcome (fl c : Z) (s : kstate) :
  let r := ibs_device_create fl c s in
  calls r = [EvDeviceCreate fl c]
  /\ (result r = 0
      /\ final r = set_handles (handles s ∪ {[ (fl, c) ]}) s
      /\ ((fl, c) ∈ handles (final r))
      \/ - MAX_ERRNO <= result r <= -1 /\ final r = s).
Proof.
  intros r. subst r. rewrite ibs_device_create_run.
  destruct (IS_ERR (device_create_ret fl c)) eqn:E;
    cbn [result final calls fst snd]; split; try reflexivity.
  - right. split; [apply PTR_ERR_range; exact E | reflexivity].
  - left. repeat split. cbn [handles set_handles]. sets.
Qed.

(** X10: a CPU_UP_PREPARE on which both creations succeed returns
    NOTIFY_OK and leaves both handles of the core in place.  Whatever a
    CPU_UP_PREPARE did (succeed, fail on the op handle, fail on the fetch
    handle), a removal action that follows leaves exactly the handles
    that existed before, less the two of this core. *)
Theorem prepare_then_removal (action hcpu : Z) (s : kstate) :
  action = CPU_UP_CANCELED \/ action = CPU_UP_CANCELED_FROZEN
  \/ action = CPU_DEAD ->
  let c := to_int (to_uint hcpu) in
  let r1 := ibs_class_cpu_callback CPU_UP_PREPARE hcpu s in
  let r2 := ibs_class_cpu_callback action hcpu (final r1) in
  (IS_ERR (device_create_ret IBS_OP c) = false ->
   IS_ERR (device_create_ret IBS_FETCH c) = false ->
   result r1 = NOTIFY_OK
   /\ ((IBS_OP, c) ∈ handles (final r1))
   /\ ((IBS_FETCH, c) ∈ handles (final r1)))
  /\ handles (final r2)
     = handles s ∖ {[ (IBS_OP, c) ]} ∖ {[ (IBS_FETCH, c) ]}
  /\ (((IBS_OP, c) ∉ handles s) -> ((IBS_FETCH, c) ∉ handles s) ->
      handles (final r2) = handles s).
Proof.
  intros Ha c r1 r2. subst r1 r2.
  rewrite (callback_removed action hcpu _ Ha), callback_up_prepare.
  fold c. cbv zeta.
  destruct (IS_ERR (device_create_ret IBS_OP c)) eqn:Eop;
    [|destruct (IS_ERR (device_create_ret IBS_FETCH c)) eqn:Ef];
    cbn [result final fst snd handles set_handles].
  - split; [discriminate|]. split; [reflexivity|].
    intros H1 H2. apply set_eq. intros x. sets.
  - split; [discriminate|]. split; [apply set_eq; intros x; sets|].
    intros H1 H2. apply set_eq. intros x. sets.
  - split; [intros _ _; split; [reflexivity | split; sets]|].
    split; [apply set_eq; intros x; sets|].
    intros H1 H2. apply set_eq. intros x. sets.
Qed.

(** X11: destroying handles is idempotent: a second removal action for
    the same core makes the same two calls and leaves the state the first
    one produced. *)
Theorem removal_idempotent (a1 a2 hcpu : Z) (s : kstate) :
  a1 = CPU_UP_CANCELED \/ a1 = CPU_UP_CANCELED_FROZEN \/ a1 = CPU_DEAD ->
  a2 = CPU_UP_CANCELED \/ a2 = CPU_UP_CANCELED_FROZEN \/ a2 = CPU_DEAD ->
  let r1 := ibs_class_cpu_callback a1 hcpu s in
  let r2 := ibs_class_cpu_callback a2 hcpu (final r1) in
  handles (final r2) = handles (final r1)
  /\ calls r2 = calls r1 /\ result r2 = NOTIFY_OK.
Proof.
  intros H1 H2 r1 r2. subst r1 r2.
  rewrite (callback_removed a2 hcpu _ H2), (callback_removed a1 hcpu _ H1).
  cbn [result final calls fst snd handles set_handles].
  repeat split. apply set_eq. intros x. sets.
Qed.

End HotplugMore.

(** ** The steps of module load *)

Section LoadSteps.
Context {hdr : Headers} {plat : Platform}.

Lemma ibs_init_stages :
  ibs_init
  = bind check_for_ibs_support
      (fun err => if err <? 0 then ret err else allocate_storage err).
Proof. reflexivity. Qed.

Lemma storage_update_dev p g : preserves storage (update_dev p g).
Proof.
  apply preserves_modify. intros s. unfold storage.
  destruct p as [[] c]; cbn [fst snd area_of];
    [destruct (pcpu_op_dev s) eqn:E | destruct (pcpu_fetch_dev s) eqn:E];
    cbn [set_area set_pcpu_op_dev set_pcpu_fetch_dev pcpu_op_dev
         pcpu_fetch_dev]; rewrite ?E; reflexivity.
Qed.

(** *** The loop over the possible cores *)

Lemma preserves_setup_devices {X} (f : kstate -> X) cpus err :
  ignores_areas f -> preserves f (setup_devices cpus err).
Proof.
  intros Hf. revert err. induction cpus as [|c cpus IH]; intros err;
    cbn [setup_devices].
  - apply preserves_ret.
  - unfold init_ibs_op_dev_at, init_ibs_fetch_dev_at, setup_ibs_buffer,
      init_workaround_initialize.
    repeat preserves_step; try apply IH; auto.
Qed.

Lemma storage_setup_devices cpus err :
  preserves storage (setup_devices cpus err).
Proof.
  revert err. induction cpus as [|c cpus IH]; intros err;
    cbn [setup_devices].
  - apply preserves_ret.
  - unfold init_ibs_op_dev_at, init_ibs_fetch_dev_at, setup_ibs_buffer,
      init_workaround_initialize.
    repeat first [ apply storage_update_dev | preserves_step ];
      try apply IH.
Qed.

Lemma first_buffer_error_nonzero cpus e :
  first_buffer_error cpus = Some e -> e <> 0.
Proof.
  induction cpus as [|c cpus IH]; cbn [first_buffer_error];
    [discriminate|].
  destruct (Z.eqb_spec (setup_ibs_buffer_ret (per_cpu_ptr OpArea c)) 0);
    cbn [negb]; [|congruence].
  destruct (Z.eqb_spec (setup_ibs_buffer_ret (per_cpu_ptr FetchArea c)) 0);
    cbn [negb]; [exact IH | congruence].
Qed.

(** The loop jumps out with the first error, or runs to its end with
    [err] at zero. *)
Lemma setup_devices_result cpus (s : kstate) :
  result (setup_devices cpus 0 s)
  = match first_buffer_error cpus with
    | Some e => Jump e
    | None => Next 0
    end.
Proof.
  revert s. induction cpus as [|c cpus IH]; intros s;
    cbn [setup_devices first_buffer_error]; [reflexivity|].
  unfold setup_ibs_buffer. rewrite !bind_unfold. msimpl.
  destruct (Z.eqb_spec (setup_ibs_buffer_ret (per_cpu_ptr OpArea c)) 0)
    as [E|E]; cbn [negb]; [|reflexivity].
  rewrite !bind_unfold. msimpl.
  destruct (Z.eqb_spec (setup_ibs_buffer_ret (per_cpu_ptr FetchArea c)) 0)
    as [E'|E']; cbn [negb]; [|reflexivity].
  rewrite !bind_unfold. msimpl. rewrite E'. apply IH.
Qed.

(** A store through a pointer into an allocated area. *)
Lemma update_dev_allocated a c g (s : kstate) m :
  area_of a s = Some m ->
  final (update_dev (a, c) g s)
  = set_area a (Some (fun c' => if Z.eq_dec c' c then g (m c') else m c')) s.
Proof.
  intros Hm. unfold update_dev, modify, final. cbn [fst snd]. rewrite Hm.
  reflexivity.
Qed.

Lemma dev_ready_op (g : kstate) (d : ibs_dev) (c : Z) :
  dev_ready g IBS_OP sizeof_ibs_op c
    (set_buf (Some IBS_OP_BUFFER_SIZE) (init_ibs_op_dev g d (to_int c))).
Proof.
  unfold dev_ready, init_ibs_op_dev, init_ibs_dev, set_flavor_entry_size,
    set_buf. cbn [cpu flavor entry_size in_use dev_caps dev_workarounds buf].
  destruct (caps g), (workarounds g). repeat split.
Qed.

Lemma dev_ready_fetch (g : kstate) (d : ibs_dev) (c : Z) :
  dev_ready g IBS_FETCH sizeof_ibs_fetch c
    (set_buf (Some IBS_FETCH_BUFFER_SIZE)
       (init_ibs_fetch_dev g d (to_int c))).
Proof.
  unfold dev_ready, init_ibs_fetch_dev, init_ibs_dev, set_flavor_entry_size,
    set_buf. cbn [cpu flavor entry_size in_use dev_caps dev_workarounds buf].
  destruct (caps g), (workarounds g). repeat split.
Qed.

Lemma dev_ready_same_variables g g' fl sz c d :
  caps g' = caps g -> workarounds g' = workarounds g ->
  dev_ready g' fl sz c d -> dev_ready g fl sz c d.
Proof. unfold dev_ready. intros -> ->. tauto. Qed.

(** One round of the loop with both allocations succeeding. *)
Lemma setup_devices_cons c rest (s : kstate) :
  (forall d, setup_ibs_buffer_ret d = 0) ->
  let sa :=
    final (update_dev (per_cpu_ptr OpArea c)
             (fun d => init_ibs_op_dev s d (to_int c)) s) in
  let sb :=
    final (update_dev (per_cpu_ptr OpArea c)
             (set_buf (Some IBS_OP_BUFFER_SIZE)) sa) in
  let sc :=
    final (update_dev (per_cpu_ptr FetchArea c)
             (fun d => init_ibs_fetch_dev sb d (to_int c)) sb) in
  let sd :=
    final (update_dev (per_cpu_ptr FetchArea c)
             (set_buf (Some IBS_FETCH_BUFFER_SIZE)) sc) in
  final (setup_devices (c :: rest) 0 s) = final (setup_devices rest 0 sd).
Proof.
  intros Hok. cbv zeta. cbn [setup_devices].
  unfold init_ibs_op_dev_at, init_ibs_fetch_dev_at, setup_ibs_buffer,
    init_workaround_initialize.
  repeat progress
    (rewrite ?final_bind; msimpl; rewrite ?Hok;
     change (0 =? 0) with true; cbv iota; cbn [negb]).
  reflexivity.
Qed.

(** With every buffer allocation succeeding, the loop leaves the devices
    of the cores it visits ready and those of all other cores as they
    were. *)
Lemma setup_devices_ready cpus :
  (forall d, setup_ibs_buffer_ret d = 0) ->
  forall (s : kstate) mo mf,
    pcpu_op_dev s = Some mo -> pcpu_fetch_dev s = Some mf ->
    exists mo' mf',
      pcpu_op_dev (final (setup_devices cpus 0 s)) = Some mo'
      /\ pcpu_fetch_dev (final (setup_devices cpus 0 s)) = Some mf'
      /\ (forall c, c ∈ cpus ->
            dev_ready s IBS_OP sizeof_ibs_op c (mo' c)
            /\ dev_ready s IBS_FETCH sizeof_ibs_fetch c (mf' c))
      /\ (forall c, c ∉ cpus -> mo' c = mo c /\ mf' c = mf c).
Proof.
  intros Hok. induction cpus as [|c0 rest IH]; intros s mo mf Ho Hf.
  - exists mo, mf. cbn [setup_devices ret final fst snd].
    split; [exact Ho|]. split; [exact Hf|]. split; [|auto].
    intros x Hx. inversion Hx.
  - rewrite (setup_devices_cons c0 rest s Hok). cbv zeta.
    unfold per_cpu_ptr.
    repeat match goal with
           | |- context [ final (update_dev (?a, ?c) ?g ?st) ] =>
               lazymatch st with
               | context [ update_dev ] => fail
               | _ => idtac
               end;
               erewrite (update_dev_allocated a c g st)
                 by (cbn [area_of pcpu_op_dev pcpu_fetch_dev
                          set_pcpu_op_dev set_pcpu_fetch_dev];
                     first [ eassumption | reflexivity ]);
               cbn [set_area]
           end.
    match goal with
    | |- context [ setup_devices rest 0 ?s1 ] =>
        destruct (IH s1 _ _ eq_refl eq_refl)
          as (mo' & mf' & Ho' & Hf' & Hin & Hout);
        assert (Hc : caps s1 = caps s) by reflexivity;
        assert (Hw : workarounds s1 = workarounds s) by reflexivity
    end.
    exists mo', mf'. split; [exact Ho'|]. split; [exact Hf'|]. split.
    + intros c Hc0. destruct (decide (c ∈ rest)) as [Hr|Hr].
      * destruct (Hin c Hr) as [H1 H2].
        split; eapply dev_ready_same_variables; eauto.
      * apply elem_of_cons in Hc0 as [->|Hc0]; [|contradiction].
        destruct (Hout c0 Hr) as [-> ->].
        destruct (Z.eq_dec c0 c0) as [_|Hne]; [|contradiction].
        split; [apply dev_ready_op|].
        eapply dev_ready_same_variables;
          [| |apply dev_ready_fetch]; reflexivity.
    + intros c Hc0. apply not_elem_of_cons in Hc0 as [Hne Hr].
      destruct (Hout c Hr) as [-> ->].
      destruct (Z.eq_dec c c0); [contradiction|]. split; reflexivity.
Qed.

(** *** The loop over the online cores *)

Lemma core_handles_cons c cpus :
  core_handles (c :: cpus)
  = {[ (IBS_OP, to_int c) ]} ∪ ({[ (IBS_FETCH, to_int c) ]}
                                 ∪ core_handles cpus).
Proof. reflexivity. Qed.

Lemma preserves_ibs_device_create {X} (f : kstate -> X) fl c :
  ignores_handles f -> preserves f (ibs_device_create fl c).
Proof.
  intros Hf s. rewrite ibs_device_create_run.
  destruct (IS_ERR (device_create_ret fl c)); cbn [final fst snd];
    [reflexivity | apply Hf].
Qed.

Lemma preserves_create_devices {X} (f : kstate -> X) cpus err :
  ignores_handles f -> preserves f (create_devices cpus err).
Proof.
  intros Hf. revert err. induction cpus as [|c cpus IH]; intros err;
    cbn [create_devices].
  - apply preserves_ret.
  - repeat first [ apply preserves_ibs_device_create; exact Hf
                 | apply IH | preserves_step ].
Qed.

(** A creation that may be skipped adds at most its own handle. *)
Lemma maybe_create_handles (b : bool) fl c err (s : kstate) :
  let r := (if b then ibs_device_create fl c else ret err) s in
  handles s ⊆ handles (final r)
  /\ handles (final r) ⊆ handles s ∪ {[ (fl, c) ]}.
Proof.
  destruct b; cbv zeta.
  - rewrite ibs_device_create_run.
    destruct (IS_ERR (device_create_ret fl c));
      cbn [final fst snd handles set_handles].
    + split; [reflexivity | apply union_subseteq_l].
    + split; [apply union_subseteq_l | reflexivity].
  - cbn [ret final fst snd]. split; [reflexivity | apply union_subseteq_l].
Qed.

Lemma handles_chain (A0 A1 A2 A3 C : gset (Z * Z)) (x y : Z * Z) :
  A0 ⊆ A1 -> A1 ⊆ A0 ∪ {[ x ]} -> A1 ⊆ A2 -> A2 ⊆ A1 ∪ {[ y ]} ->
  A2 ⊆ A3 -> A3 ⊆ A2 ∪ C ->
  A0 ⊆ A3 /\ A3 ⊆ A0 ∪ ({[ x ]} ∪ ({[ y ]} ∪ C)).
Proof.
  intros H1 H2 H3 H4 H5 H6. split.
  - etransitivity; [exact H1|]. etransitivity; [exact H3 | exact H5].
  - intros z Hz. apply H6 in Hz. rewrite !elem_of_union.
    apply elem_of_union in Hz as [Hz|Hz]; [|tauto].
    apply H4 in Hz. apply elem_of_union in Hz as [Hz|Hz]; [|tauto].
    apply H2 in Hz. apply elem_of_union in Hz as [Hz|Hz]; tauto.
Qed.

(** The loop only ever adds handles, and only handles of the cores it
    visits. *)
Lemma create_devices_handles cpus err (s : kstate) :
  handles s ⊆ handles (final (create_devices cpus err s))
  /\ handles (final (create_devices cpus err s))
     ⊆ handles s ∪ core_handles cpus.
Proof.
  revert err s. induction cpus as [|c cpus IH]; intros err s;
    cbn [create_devices].
  - cbn [ret final fst snd]. split; [reflexivity | apply union_subseteq_l].
  - rewrite core_handles_cons.
    rewrite final_bind. cbn [get result final fst snd].
    rewrite final_bind.
    destruct (maybe_create_handles
                (negb (ibs_op_supported (caps s) =? 0)) IBS_OP (to_int c)
                err s) as [H1 H2].
    match goal with
    | |- context [ final (?m s) ] =>
        generalize dependent (final (m s)); generalize (result (m s))
    end.
    intros err1 s1 H1 H2.
    destruct (negb (err1 =? 0)).
    { cbn [ret final fst snd]. split; [exact H1|].
      etransitivity; [exact H2|]. apply union_mono_l, union_subseteq_l. }
    rewrite final_bind. cbn [get result final fst snd].
    rewrite final_bind.
    destruct (maybe_create_handles
                (negb (ibs_fetch_supported (caps s1) =? 0)) IBS_FETCH
                (to_int c) err1 s1) as [H3 H4].
    match goal with
    | |- context [ final (?m s1) ] =>
        generalize dependent (final (m s1)); generalize (result (m s1))
    end.
    intros err2 s2 H3 H4.
    destruct (IH err2 s2) as [H5 H6].
    destruct (negb (err2 =? 0)).
    { cbn [ret final fst snd].
      apply (handles_chain _ _ _ _ ∅ _ _ H1 H2 H3 H4);
        [reflexivity | apply union_subseteq_l]. }
    revert H1 H2 H3 H4 H5 H6.
    generalize (handles (final (create_devices cpus err2 s2))).
    generalize (handles s2), (handles s1), (handles s),
      (core_handles cpus).
    intros C A0 A1 A2 A3 H1 H2 H3 H4 H5 H6.
    pose proof (handles_chain _ _ _ _ _ _ _ H1 H2 H3 H4 H5 H6) as [Ha Hb].
    split; [exact Ha | exact Hb].
Qed.

(** With every creation succeeding, the loop runs to its end and has
    added the handles of the supported flavors of every core it
    visited. *)
Lemma create_devices_ok cpus (s : kstate) :
  (forall fl c, IS_ERR (device_create_ret fl c) = false) ->
  result (create_devices cpus 0 s) = Next 0
  /\ handles (final (create_devices cpus 0 s))
     = handles s ∪ supported_handles (caps s) cpus.
Proof.
  intros Hok. revert s. induction cpus as [|c cpus IH]; intros s;
    cbn [create_devices].
  - cbn [ret result final fst snd]. split; [reflexivity|].
    apply set_eq. intros x. unfold supported_handles. cbn. sets.
  - rewrite !bind_unfold. cbn [get result final fst snd].
    set (s1 := final ((if negb (ibs_op_supported (caps s) =? 0)
                       then ibs_device_create IBS_OP (to_int c)
                       else ret 0) s)).
    assert (H1 : result ((if negb (ibs_op_supported (caps s) =? 0)
                          then ibs_device_create IBS_OP (to_int c)
                          else ret 0) s) = 0
                 /\ caps s1 = caps s
                 /\ handles s1
                    = handles s
                      ∪ list_to_set
                          (if ibs_op_supported (caps s) =? 0 then []
                           else [(IBS_OP, to_int c)])).
    { subst s1. destruct (ibs_op_supported (caps s) =? 0); cbn [negb].
      - cbn. repeat split. apply set_eq. intros x. sets.
      - rewrite ibs_device_create_run, Hok.
        cbn [result final fst snd handles caps set_handles list_to_set].
        repeat split. apply set_eq. intros x. sets. }
    destruct H1 as (-> & Hc1 & Hh1). change (negb (0 =? 0)) with false.
    cbv iota. rewrite !bind_unfold. cbn [get result final fst snd].
    set (s2 := final ((if negb (ibs_fetch_supported (caps s1) =? 0)
                       then ibs_device_create IBS_FETCH (to_int c)
                       else ret 0) s1)).
    assert (H2 : result ((if negb (ibs_fetch_supported (caps s1) =? 0)
                          then ibs_device_create IBS_FETCH (to_int c)
                          else ret 0) s1) = 0
                 /\ caps s2 = caps s1
                 /\ handles s2
                    = handles s1
                      ∪ list_to_set
                          (if ibs_fetch_supported (caps s1) =? 0 then []
                           else [(IBS_FETCH, to_int c)])).
    { subst s2. destruct (ibs_fetch_supported (caps s1) =? 0); cbn [negb].
      - cbn. repeat split. apply set_eq. intros x. sets.
      - rewrite ibs_device_create_run, Hok.
        cbn [result final fst snd handles caps set_handles list_to_set].
        repeat split. apply set_eq. intros x. sets. }
    destruct H2 as (-> & Hc2 & Hh2). change (negb (0 =? 0)) with false.
    cbv iota. destruct (IH s2) as [Hr Hh]. split; [exact Hr|].
    rewrite Hh, Hh2, Hh1, Hc2, Hc1. unfold supported_handles.
    cbn [flat_map]. rewrite !list_to_set_app_L.
    apply set_eq. intros x. sets.
Qed.

End LoadSteps.
